(** * travel-tracker: the record pipeline of [app.py] and [import_data.py]

    A shallow embedding of the data functions of the travel log (the airport
    table, the distance calculator, the CSV store, the manual flight form,
    the batch importer of flights and hotel stays, the route colouring of the
    dashboard) and the properties of its specification.

    Python values are modelled by the type [json] (what [json.load] returns)
    and by [cell] (what a DataFrame holds); dictionaries are [gmap]s keyed by
    strings; an operation that can raise returns a [result].  The libraries
    the program calls are not part of it: [geopy]'s geodesic distance,
    [pandas.to_datetime] and the Nominatim geocoder are variables of the
    section below.  A file is modelled by the frame that was written to it;
    reading it back goes through a model of what pandas writes for a cell
    and of how it infers the cells of a column from the text. *)

From Stdlib Require Import ZArith QArith String Ascii List Lia DecimalString DecimalPos.
From stdpp Require Import base option list gmap strings.

#[local] Open Scope Z_scope.
#[local] Open Scope string_scope.
#[local] Set Warnings "-register-all".

(** ** Exceptions *)

Inductive exn :=
| FileNotFoundError
| EmptyDataError
| JSONDecodeError
| AttributeError
| TypeError
| KeyError
| IndexError
| ValueError.

Inductive result (A : Type) :=
| Ok (a : A)
| Raise (e : exn).
Arguments Ok {A} a.
Arguments Raise {A} e.

#[global] Instance result_ret : MRet result := fun A a => Ok a.
#[global] Instance result_bind : MBind result := fun A B f m =>
  match m with
  | Ok a => f a
  | Raise e => Raise e
  end.

(** ** Python values *)

(** What [json.load] builds: [None], booleans, integers, floats, strings,
    lists and dictionaries. *)
Inductive json :=
| JNull
| JBool (b : bool)
| JInt (z : Z)
| JFloat (q : Q)
| JStr (s : string)
| JArr (l : list json)
| JObj (m : gmap string json).

(** Truth value of an object, as [if x], [x and y], [x or y] use it. *)
Definition truthy (v : json) : bool :=
  match v with
  | JNull => false
  | JBool b => b
  | JInt z => negb (Z.eqb z 0)
  | JFloat q => negb (Z.eqb (Qnum q) 0)
  | JStr s => negb (String.eqb s "")
  | JArr l => match l with [] => false | _ => true end
  | JObj m => negb (bool_decide (m = ∅))
  end.

(** [a or b], with [b] already evaluated (every use has a pure [b]). *)
Definition py_or (a b : json) : json := if truthy a then a else b.

(** [d.get(k, default)]: only a dictionary has the method. *)
Definition get_default (d : json) (k : string) (dflt : json) : result json :=
  match d with
  | JObj m => Ok (default dflt (m !! k))
  | _ => Raise AttributeError
  end.

(** [d.get(k)]. *)
Definition get (d : json) (k : string) : result json := get_default d k JNull.

(** [d[k]]. *)
Definition getitem (d : json) (k : string) : result json :=
  match d with
  | JObj m => match m !! k with Some v => Ok v | None => Raise KeyError end
  | _ => Raise TypeError
  end.

(** ** Strings *)

(** [str.upper] on the ASCII letters; other bytes are kept. *)
Definition upper_ascii (c : ascii) : ascii :=
  let n := N_of_ascii c in
  if ((97 <=? n) && (n <=? 122))%N then ascii_of_N (n - 32) else c.

Fixpoint upper (s : string) : string :=
  match s with
  | EmptyString => EmptyString
  | String c s' => String (upper_ascii c) (upper s')
  end.

(** [v.upper()] on a Python value: only a string has the method. *)
Definition upper_method (v : json) : result string :=
  match v with
  | JStr s => Ok (upper s)
  | _ => Raise AttributeError
  end.

(** [needle in hay] on strings. *)
Fixpoint str_contains (needle hay : string) : bool :=
  String.prefix needle hay ||
  match hay with
  | EmptyString => false
  | String _ hay' => str_contains needle hay'
  end.

(** ** The airport table *)

Definition coord : Type := Q * Q.

Definition AIRPORT_DB : gmap string coord :=
  list_to_map
    [ ("DFW", (32.8998, -97.0403)%Q); ("LGA", (40.7769, -73.8740)%Q);
      ("JFK", (40.6413, -73.7781)%Q); ("LHR", (51.4700, -0.4543)%Q);
      ("ORD", (41.9742, -87.9073)%Q); ("LAX", (33.9416, -118.4085)%Q);
      ("MIA", (25.7959, -80.2870)%Q); ("DCA", (38.8512, -77.0377)%Q);
      ("SFO", (37.6213, -122.3790)%Q); ("ATL", (33.6407, -84.4277)%Q);
      ("DEN", (39.8561, -104.6737)%Q); ("SEA", (47.4502, -122.3088)%Q);
      ("DAL", (32.8471, -96.8517)%Q); ("STL", (38.7487, -90.3700)%Q);
      ("CLT", (35.2140, -80.9431)%Q); ("PHX", (33.4343, -112.0116)%Q);
      ("HEL", (60.3172, 24.9633)%Q); ("AMS", (52.3081, 4.7661)%Q);
      ("EWR", (40.6895, -74.1745)%Q) ].

(** ** Tables *)

(** A [datetime.date], as the date input of the form returns it. *)
Record date := Date { year : Z; month : Z; day : Z }.

(** The value held by one cell of a DataFrame.  A float is written as the
    decimal it was given as; [CObject] stands for a list or a dictionary
    stored in a cell, [CInf] for a float infinity, which the program does not
    compute but a file can spell. *)
Inductive cell :=
| CNone
| CNaN
| CBool (b : bool)
| CInt (z : Z)
| CFloat (q : Q)
| CStr (s : string)
| CDate (d : date)
| CObject
| CInf (negative : bool).

#[global] Instance Q_eq_dec : EqDecision Q.
Proof. solve_decision. Defined.
#[global] Instance date_eq_dec : EqDecision date.
Proof. solve_decision. Defined.
#[global] Instance cell_eq_dec : EqDecision cell.
Proof. solve_decision. Defined.
#[global] Instance exn_eq_dec : EqDecision exn.
Proof. solve_decision. Defined.

(** A row is the dictionary the program builds for it: column name to cell.
    A column the row has no entry for reads as NaN. *)
Abbreviation row := (gmap string cell).

Record DataFrame := { columns : list string; rows : list row }.

(** [pd.DataFrame(columns=columns)]. *)
Definition DataFrame_empty (cols : list string) : DataFrame :=
  {| columns := cols; rows := [] |}.

(** [pd.DataFrame(records)] for a list of dictionaries that all have the keys
    [keys], in that order: no record, no column. *)
Definition DataFrame_records (keys : list string) (records : list row) : DataFrame :=
  {| columns := match records with [] => [] | _ => keys end; rows := records |}.

(** [pd.concat([a, b], ignore_index=True)]: the columns of [a], then those of
    [b] that [a] lacks; the rows of [a], then the rows of [b]. *)
Definition concat (a b : DataFrame) : DataFrame :=
  {| columns := columns a ++ filter (fun c => c ∉ columns a) (columns b);
     rows := rows a ++ rows b |}.

(** [len(df)]. *)
Definition len (df : DataFrame) : Z := Z.of_nat (length (rows df)).

(** *** Dates as text *)

Definition digit (n : Z) : ascii := ascii_of_N (48 + Z.to_N (n mod 10)).

Definition digits2 (n : Z) : string :=
  String (digit (n / 10)) (String (digit n) EmptyString).

Definition digits4 (n : Z) : string :=
  String (digit (n / 1000)) (String (digit (n / 100)) (digits2 n)).

(** [d.strftime('%Y-%m-%d')], also the text a [datetime.date] is written as. *)
Definition isoformat (d : date) : string :=
  digits4 (year d) ++ "-" ++ digits2 (month d) ++ "-" ++ digits2 (day d).

(** ** The CSV text of a table *)

(** [str(z)] of an integer. *)
Definition int_text (z : Z) : string := NilZero.string_of_int (Z.to_int z).

(** The digits of [r / d] after the point, for [0 <= r < d], at most [fuel]
    of them. *)
Fixpoint fraction_digits (fuel : nat) (r d : Z) : string :=
  match fuel with
  | O => EmptyString
  | S fuel' =>
      if Z.eqb r 0 then EmptyString
      else String (digit (10 * r / d)) (fraction_digits fuel' ((10 * r) mod d) d)
  end.

(** [repr] of a float in positional notation: the integer part, the point
    and the decimals, at least one.  (Python turns to exponent notation
    below 1e-4 and from 1e16 on, which is not modelled.) *)
Definition float_text (q : Q) : string :=
  let n := Qnum q in
  let d := Z.pos (Qden q) in
  (if Z.ltb n 0 then "-" else "")
  ++ int_text (Z.abs n / d) ++ "."
  ++ match fraction_digits 17 (Z.abs n mod d) d with
     | EmptyString => "0"
     | s => s
     end.

(** What the parser makes of one field on its own. *)
Inductive field_kind :=
| KBlank
| KInt (z : Z)
| KFloat (q : Q)
| KInf (negative : bool)
| KBool (b : bool)
| KText.

(** One field of the file: its text and what the text reads as. *)
Record field := { text : string; kind : field_kind }.

(** The texts [read_csv] takes for a missing value. *)
Definition NA_VALUES : list string :=
  [""; "#N/A"; "#N/A N/A"; "#NA"; "-1.#IND"; "-1.#QNAN"; "-NaN"; "-nan";
   "1.#IND"; "1.#QNAN"; "<NA>"; "N/A"; "NA"; "NULL"; "NaN"; "None"; "n/a";
   "nan"; "null"].

(** The texts the parser takes for an infinity, letter case apart. *)
Definition INF_VALUES : list string := ["INF"; "+INF"; "INFINITY"; "+INFINITY"].
Definition NEG_INF_VALUES : list string := ["-INF"; "-INFINITY"].

Definition TRUE_VALUES : list string := ["True"; "TRUE"; "true"].
Definition FALSE_VALUES : list string := ["False"; "FALSE"; "false"].

Definition is_digit (c : ascii) : bool :=
  let n := N_of_ascii c in ((48 <=? n) && (n <=? 57))%N.

(** C's [isspace]: the blank and the characters 9 to 13. *)
Definition is_space (c : ascii) : bool :=
  let n := N_of_ascii c in ((n =? 32) || ((9 <=? n) && (n <=? 13)))%N.


Fixpoint skip_spaces (s : string) : string :=
  match s with
  | EmptyString => EmptyString
  | String c s' => if is_space c then skip_spaces s' else s
  end.

(** The digits [s] starts with, and what follows them. *)
Fixpoint span_digits (s : string) : string * string :=
  match s with
  | EmptyString => (EmptyString, EmptyString)
  | String c s' =>
      if is_digit c then let '(ds, rest) := span_digits s' in (String c ds, rest)
      else (EmptyString, s)
  end.

(** An optional sign: whether it is a minus, and what follows it. *)
Definition sign_of (s : string) : bool * string :=
  match s with
  | EmptyString => (false, s)
  | String c s' =>
      if Ascii.eqb c "-" then (true, s')
      else if Ascii.eqb c "+" then (false, s')
      else (false, s)
  end.

(** Nothing but blanks is left. *)
Definition blank_rest (s : string) : bool := String.eqb (skip_spaces s) "".

(** The value of a text of digits. *)
Fixpoint decimal_value (acc : Z) (s : string) : Z :=
  match s with
  | EmptyString => acc
  | String c s' => decimal_value (10 * acc + Z.of_N (N_of_ascii c - 48)) s'
  end.

Definition digits_value (s : string) : Z := decimal_value 0 s.

Definition signed (negative : bool) (z : Z) : Z := if negative then - z else z.

(** The integer a text spells: blanks, an optional sign, digits, blanks. *)
Definition int_of_text (s : string) : option Z :=
  let '(negative, s1) := sign_of (skip_spaces s) in
  let '(ds, rest) := span_digits s1 in
  if negb (String.eqb ds "") && blank_rest rest then Some (signed negative (digits_value ds))
  else None.

(** An exponent with its digits, and what follows it; without digits the
    mark is not part of the number. *)
Definition exponent_of (s : string) : Z * string :=
  match s with
  | EmptyString => (0, s)
  | String c s' =>
      if Ascii.eqb c "e" || Ascii.eqb c "E" then
        let '(negative, s1) := sign_of s' in
        let '(ds, rest) := span_digits s1 in
        if String.eqb ds "" then (0, s) else (signed negative (digits_value ds), rest)
      else (0, s)
  end.

(** [m] times ten to the power [e]. *)
Definition scaled (m e : Z) : Q :=
  if Z.leb 0 e then inject_Z (m * 10 ^ e) else Qmake m (Z.to_pos (10 ^ (- e))).

(** The decimals after a point, if [s] starts with one, and what follows. *)
Definition decimals_of (s : string) : string * string :=
  match s with
  | EmptyString => (EmptyString, s)
  | String c s' => if Ascii.eqb c "." then span_digits s' else (EmptyString, s)
  end.

(** The float a text spells: blanks, an optional sign, digits with an
    optional point among them, an optional exponent, blanks.  The float is
    kept as the decimal the text spells. *)
Definition float_of_text (s : string) : option Q :=
  let '(negative, s1) := sign_of (skip_spaces s) in
  let '(whole, s2) := span_digits s1 in
  let '(decimals, s3) := decimals_of s2 in
  if String.eqb whole "" && String.eqb decimals "" then None
  else
    let '(e, s4) := exponent_of s3 in
    if blank_rest s4 then
      Some (scaled (signed negative (digits_value (whole ++ decimals)))
              (e - Z.of_nat (String.length decimals)))
    else None.

Definition mem_text (s : string) (l : list string) : bool := existsb (String.eqb s) l.

(** What the parser makes of the text [s]: a missing value, else an integer
    of 64 bits, else a float or an infinity, else a boolean, else the text
    itself.  An integer that does not fit 64 bits leaves the text as it
    is. *)
Definition kind_of_text (s : string) : field_kind :=
  if mem_text s NA_VALUES then KBlank
  else match int_of_text s with
       | Some z => if Z.leb (- 2 ^ 63) z && Z.ltb z (2 ^ 64) then KInt z else KText
       | None =>
           match float_of_text s with
           | Some q => KFloat q
           | None =>
               if mem_text (upper s) INF_VALUES then KInf false
               else if mem_text (upper s) NEG_INF_VALUES then KInf true
               else if mem_text s TRUE_VALUES then KBool true
               else if mem_text s FALSE_VALUES then KBool false
               else KText
           end
       end.

(** The text [to_csv] writes for a cell: nothing for [None] and NaN, the
    ISO text for a date.  (An object is written as its [str], which the
    cell does not keep; the text "object" stands for it.) *)
Definition cell_text (c : cell) : string :=
  match c with
  | CNone | CNaN => ""
  | CBool b => if b then "True" else "False"
  | CInt z => int_text z
  | CFloat q => float_text q
  | CStr s => s
  | CDate d => isoformat d
  | CObject => "object"
  | CInf negative => if negative then "-inf" else "inf"
  end.

(** The field of a cell: its text and what the parser makes of the text.
    A float is read back as the float that was written ([repr] gives a
    text that determines the float); the rational of the model is kept as
    it is, whatever fraction spells it. *)
Definition written (c : cell) : field :=
  match c with
  | CFloat q => {| text := float_text q; kind := KFloat q |}
  | _ => {| text := cell_text c; kind := kind_of_text (cell_text c) |}
  end.

(** The cell a field gives in a column of fields of its own kind. *)
Definition read_field (f : field) : cell :=
  match kind f with
  | KBlank => CNaN
  | KInt z => CInt z
  | KFloat q => CFloat q
  | KInf negative => CInf negative
  | KBool b => CBool b
  | KText => CStr (text f)
  end.

(** What a cell reads back as when its column holds cells of its kind. *)
Definition read_back (c : cell) : cell := read_field (written c).

Definition is_int (f : field) : bool := match kind f with KInt _ => true | _ => false end.
Definition is_float (f : field) : bool :=
  match kind f with KFloat _ | KInf _ => true | _ => false end.
Definition is_bool (f : field) : bool := match kind f with KBool _ => true | _ => false end.
Definition is_text (f : field) : bool := match kind f with KText => true | _ => false end.
Definition is_number_or_blank (f : field) : bool :=
  match kind f with KInt _ | KFloat _ | KInf _ | KBlank => true | _ => false end.
Definition is_bool_or_blank (f : field) : bool :=
  match kind f with KBool _ | KBlank => true | _ => false end.

(** A column of one kind: integers only, floats only, booleans only or
    texts only. *)
Definition same_kind (fields : list field) : bool :=
  forallb is_int fields || forallb is_float fields
  || forallb is_bool fields || forallb is_text fields.

(** The type inference of [read_csv] on one column, in the order the parser
    tries: integers when every field is one; floats when every field is a
    number or blank, a blank being NaN; booleans, with NaN for the blanks,
    when no field is anything else; otherwise the texts as they are, with
    NaN for the blanks. *)
Definition parse_column (fields : list field) : list cell :=
  if forallb is_int fields then read_field <$> fields
  else if forallb is_number_or_blank fields then
    (fun f => match kind f with
              | KInt z => CFloat (inject_Z z)
              | KFloat q => CFloat q
              | KInf negative => CInf negative
              | _ => CNaN
              end) <$> fields
  else if forallb is_bool_or_blank fields then read_field <$> fields
  else (fun f => match kind f with KBlank => CNaN | _ => CStr (text f) end) <$> fields.

(** The fields of the column [c] of a frame, top to bottom; a row without an
    entry for the column has a blank there. *)
Definition column_fields (df : DataFrame) (c : string) : list field :=
  (fun r : row => written (default CNaN (r !! c))) <$> rows df.

(** The frame [read_csv] builds from the text [to_csv] wrote for [df]: the
    same columns (their names being distinct and not empty, as those of the
    program are), the same number of rows, every row with an entry for every
    column. *)
Definition parse_frame (df : DataFrame) : DataFrame :=
  {| columns := columns df;
     rows := (fun i : nat =>
                list_to_map
                  ((fun c => (c, default CNaN (parse_column (column_fields df c) !! i)))
                   <$> columns df))
             <$> seq 0 (length (rows df)) |}.

(** *** Files *)

(** The tables on disk: path to the frame that was written there. *)
Abbreviation tables := (gmap string DataFrame).

(** [pd.read_csv(file)]: a missing file raises [FileNotFoundError]; a file
    written from a frame without columns has no header line and raises
    [EmptyDataError]; otherwise the text is parsed. *)
Definition read_csv (t : tables) (file : string) : result DataFrame :=
  match t !! file with
  | None => Raise FileNotFoundError
  | Some df => match columns df with
               | [] => Raise EmptyDataError
               | _ => Ok (parse_frame df)
               end
  end.

(** [df.to_csv(file, index=False)]: the whole file is replaced. *)
Definition to_csv (df : DataFrame) (file : string) (t : tables) : tables :=
  <[file := df]> t.

Definition FLIGHTS_FILE : string := "flights.csv".
Definition HOTELS_FILE : string := "hotels.csv".

Definition load_data (t : tables) (file : string) (cols : list string) : result DataFrame :=
  match read_csv t file with
  | Ok df => Ok df
  | Raise FileNotFoundError => Ok (DataFrame_empty cols)
  | Raise e => Raise e
  end.

Definition save_data (df : DataFrame) (file : string) (t : tables) : tables :=
  to_csv df file t.

(** How both Save handlers of [app.py] end: load the current table, put the
    one-row frame after it, write the whole table back. *)
Definition append_row (new_row : DataFrame) (file : string) (t : tables) : result tables :=
  df_curr ← load_data t file (columns new_row);
  mret (save_data (concat df_curr new_row) file t).

(** The keys of a flight dictionary, in the order both programs write them. *)
Definition FLIGHT_COLUMNS : list string :=
  ["Date"; "Airline"; "Origin"; "Destination"; "Miles";
   "Origin_Lat"; "Origin_Lon"; "Dest_Lat"; "Dest_Lon"].

Definition HOTEL_COLUMNS : list string :=
  ["Date"; "Name"; "City"; "Address"; "Nights"; "Lat"; "Lon"].

(** The dictionary literal of a flight row. *)
Definition flight_row (d airline origin dest miles : cell) (o dst : coord) : row :=
  list_to_map
    [ ("Date", d); ("Airline", airline); ("Origin", origin); ("Destination", dest);
      ("Miles", miles); ("Origin_Lat", CFloat (fst o)); ("Origin_Lon", CFloat (snd o));
      ("Dest_Lat", CFloat (fst dst)); ("Dest_Lon", CFloat (snd dst)) ].

(** The dictionary literal of a hotel row. *)
Definition hotel_row (d name city address nights : cell) (lat lon : Q) : row :=
  list_to_map
    [ ("Date", d); ("Name", name); ("City", city); ("Address", address);
      ("Nights", nights); ("Lat", CFloat lat); ("Lon", CFloat lon) ].

(** What the page shows after a handler ran. *)
Inductive message :=
| success (text : string)
| error (text : string)
| info (text : string).

(** ** Timestamps *)

(** A [pandas.Timestamp] without time zone: seconds since 1970-01-01. *)
Definition Timestamp : Type := Z.

(** What [pd.to_datetime] does with a scalar. *)
Inductive dt_result :=
| DtRaise (e : exn)
| DtNone
| DtNaT
| DtStamp (t : Timestamp).

(** Days since 1970-01-01 to year, month, day (proleptic Gregorian). *)
Definition civil_from_days (z : Z) : date :=
  let z := z + 719468 in
  let era := z / 146097 in
  let doe := z - era * 146097 in
  let yoe := (doe - doe / 1460 + doe / 36524 - doe / 146096) / 365 in
  let doy := doe - (365 * yoe + yoe / 4 - yoe / 100) in
  let mp := (5 * doy + 2) / 153 in
  let d := doy - (153 * mp + 2) / 5 + 1 in
  let m := if Z.ltb mp 10 then mp + 3 else mp - 9 in
  let y := yoe + era * 400 in
  Date (if Z.leb m 2 then y + 1 else y) m d.

Definition days_from_civil (d : date) : Z :=
  let y := if Z.leb (month d) 2 then year d - 1 else year d in
  let era := y / 400 in
  let yoe := y - era * 400 in
  let mp := if Z.ltb 2 (month d) then month d - 3 else month d + 9 in
  let doy := (153 * mp + 2) / 5 + day d - 1 in
  let doe := yoe * 365 + yoe / 4 - yoe / 100 + doy in
  era * 146097 + doe - 719468.

(** [t.strftime('%Y-%m-%d')]. *)
Definition strftime_ymd (t : Timestamp) : string :=
  isoformat (civil_from_days (t / 86400)).

(** [(e - s).days]: the day field of a [Timedelta], rounded down. *)
Definition timedelta_days (e s : Timestamp) : Z := (e - s) / 86400.

(** ** Stand-ins for the libraries, used to run the model on examples *)

Definition digit_value (c : ascii) : option Z :=
  let n := N_of_ascii c in
  if ((48 <=? n) && (n <=? 57))%N then Some (Z.of_N (n - 48)) else None.

Fixpoint number_from (acc : Z) (s : string) : option Z :=
  match s with
  | EmptyString => Some acc
  | String c s' => d ← digit_value c; number_from (10 * acc + d) s'
  end.

Definition leap_year (y : Z) : bool :=
  (Z.eqb (y mod 4) 0 && negb (Z.eqb (y mod 100) 0)) || Z.eqb (y mod 400) 0.

Definition days_in_month (y m : Z) : Z :=
  if Z.eqb m 2 then (if leap_year y then 29 else 28)
  else if Z.eqb m 4 || Z.eqb m 6 || Z.eqb m 9 || Z.eqb m 11 then 30
  else 31.

(** A calendar date written [YYYY-MM-DD]. *)
Definition parse_iso_date (s : string) : option date :=
  if Nat.eqb (String.length s) 10
     && String.eqb (substring 4 1 s) "-" && String.eqb (substring 7 1 s) "-"
  then
    y ← number_from 0 (substring 0 4 s);
    m ← number_from 0 (substring 5 2 s);
    d ← number_from 0 (substring 8 2 s);
    if Z.leb 1 m && Z.leb m 12 && Z.leb 1 d && Z.leb d (days_in_month y m)
    then Some (Date y m d) else None
  else None.

(** [pd.to_datetime] on the scalars the examples use: [None] is returned as
    it is, the empty string is NaT, an integer counts nanoseconds, a
    [YYYY-MM-DD] string is that day at midnight; any other string is taken
    as one the parser refuses. *)
Definition to_datetime_iso (v : json) : dt_result :=
  match v with
  | JNull => DtNone
  | JStr EmptyString => DtNaT
  | JStr s => match parse_iso_date s with
              | Some d => DtStamp (86400 * days_from_civil d)
              | None => DtRaise ValueError
              end
  | JInt z => DtStamp (z / 1000000000)
  | _ => DtRaise TypeError
  end.

(** A distance oracle for the examples: every pair of points is 2475 miles
    apart. *)
Definition geodesic_2475 (a b : coord) : Z := 2475.

(** A geocoder result: [location.address], [.latitude], [.longitude] and the
    raw response dictionary [.raw]. *)
Record location := {
  address : string;
  latitude : Q;
  longitude : Q;
  raw : gmap string json
}.

(** A geocoder for the examples: every query is answered by [loc]. *)
Definition geocode_always (loc : location) (query : json) : result (option location) :=
  Ok (Some loc).

(** A geocoder for the examples: it knows no place. *)
Definition geocode_nothing (query : json) : result (option location) := Ok None.

(** ** The program *)

Section Pipeline.

(** [int(geodesic(a, b).miles)] of geopy. *)
Variable geodesic_miles : coord -> coord -> Z.
(** [pd.to_datetime]. *)
Variable to_datetime : json -> dt_result.
(** [geolocator.geocode(query, addressdetails=True)]. *)
Variable geocode : json -> result (option location).

(** *** app.py: distance *)

Definition calculate_distance (origin_code dest_code : string) : Z :=
  match AIRPORT_DB !! origin_code, AIRPORT_DB !! dest_code with
  | Some start, Some end_ => geodesic_miles start end_
  | _, _ => 0
  end.

(** *** app.py: the flight form *)

(** The widgets of the flight tab; the two codes are read through
    [.upper()]. *)
Record flight_form := {
  date_input : date;
  airline_input : string;
  origin_input : string;
  dest_input : string;
  miles_input : Z
}.

(** The dictionary of [new_row], for the positions [o] and [d] of the two
    airports. *)
Definition form_row (form : flight_form) (o d : coord) : row :=
  flight_row (CDate (date_input form)) (CStr (airline_input form))
    (CStr (upper (origin_input form))) (CStr (upper (dest_input form)))
    (CInt (if Z.eqb (miles_input form) 0
           then calculate_distance (upper (origin_input form)) (upper (dest_input form))
           else miles_input form))
    o d.

(** The body of [if st.button("Save Flight")]. *)
Definition save_flight (form : flight_form) (t : tables) : result (tables * message) :=
  let f_org := upper (origin_input form) in
  let f_dst := upper (dest_input form) in
  match AIRPORT_DB !! f_org, AIRPORT_DB !! f_dst with
  | Some o, Some d =>
      let new_row := DataFrame_records FLIGHT_COLUMNS [form_row form o d] in
      t' ← append_row new_row FLIGHTS_FILE t;
      mret (t', success ("Added " ++ f_org ++ "->" ++ f_dst))
  | _, _ => mret (t, error "Unknown Airport Code.")
  end.

(** *** import_data.py: flights *)

Definition FLIGHT_DATA_FILE : string := "flightData.txt".
Definition MARRIOTT_DATA_FILE : string := "marriottData.txt".
Definition OUTPUT_FLIGHTS : string := "flights.csv".
Definition OUTPUT_HOTELS : string := "hotels.csv".

(** The input files: path to what [json.load] makes of the content, [None]
    when the content is not JSON. *)
Definition json_load (inputs : gmap string (option json)) (file : string) : result json :=
  match inputs !! file with
  | None => Raise FileNotFoundError
  | Some None => Raise JSONDecodeError
  | Some (Some data) => Ok data
  end.

(** [k in data]. *)
Definition py_in (k : string) (data : json) : result bool :=
  match data with
  | JObj m => Ok (bool_decide (is_Some (m !! k)))
  | JArr l => Ok (existsb (fun v => match v with JStr s => String.eqb s k | _ => false end) l)
  | JStr s => Ok (str_contains k s)
  | _ => Raise TypeError
  end.

(** The items a [for] loop over [v] visits. *)
Definition iterate (v : json) : result (list json) :=
  match v with
  | JArr l => Ok l
  | JObj m => Ok (JStr <$> (map_to_list m).*1)
  | JStr s => Ok ((fun c => JStr (String c EmptyString)) <$> list_ascii_of_string s)
  | _ => Raise TypeError
  end.

(** [activity_type in ['Airline', 'Award Issuance']]. *)
Definition is_flight_activity (activity_type : json) : bool :=
  match activity_type with
  | JStr s => String.eqb s "Airline" || String.eqb s "Award Issuance"
  | _ => false
  end.

(** [pd.to_datetime(date_str).strftime('%Y-%m-%d')]: [None] has no
    [strftime], NaT refuses it. *)
Definition format_date (date_str : json) : result string :=
  match to_datetime date_str with
  | DtRaise e => Raise e
  | DtNone => Raise AttributeError
  | DtNaT => Raise ValueError
  | DtStamp t => Ok (strftime_ymd t)
  end.

(** The miles and the two positions of a batch flight. *)
Definition locate (origin dest : string) : Z * coord * coord :=
  match AIRPORT_DB !! origin, AIRPORT_DB !! dest with
  | Some ostart, Some dend => (geodesic_miles ostart dend, ostart, dend)
  | _, _ => (0, (0, 0)%Q, (0, 0)%Q)
  end.

(** The dictionary appended to [flights]. *)
Definition batch_row (date_text origin dest : string) : row :=
  let '(miles, o, d) := locate origin dest in
  flight_row (CStr date_text) (CStr "American Airlines") (CStr origin) (CStr dest)
    (CInt miles) o d.

(** One turn of the loop over the activity cards: the dictionary appended to
    [flights], if any.  The right operands of [or] read [summary], which is
    a dictionary at that point, so reading them early changes nothing. *)
Definition process_card (card : json) : result (option row) :=
  summary ← get_default card "summary" (JObj ∅);
  card_details ← get_default card "details" (JObj ∅);
  details ← get_default card_details "flightInfo" (JObj ∅);
  activity_type ← get summary "activityType";
  description ← get_default summary "transactionDescription" (JStr "");
  desc ← upper_method description;
  if is_flight_activity activity_type && negb (str_contains "REFUND" desc) then
    travel_date ← get details "travelDate";
    activity_date ← get summary "activityDate";
    let date_str := py_or travel_date activity_date in
    details_origin ← get details "origin";
    summary_origin ← get summary "origin";
    origin ← upper_method (py_or (py_or details_origin summary_origin) (JStr ""));
    details_dest ← get details "destination";
    summary_dest ← get summary "destination";
    dest ← upper_method (py_or (py_or details_dest summary_dest) (JStr ""));
    if truthy date_str && truthy (JStr origin) && truthy (JStr dest)
       && negb (String.eqb origin dest)
    then
      date_text ← format_date date_str;
      mret (Some (batch_row date_text origin dest))
    else mret None
  else mret None.

(** The loop: the first card that raises ends it. *)
Fixpoint collect_flights (cards : list json) : result (list row) :=
  match cards with
  | [] => Ok []
  | card :: cards' =>
      r ← process_card card;
      rs ← collect_flights cards';
      mret (option_list r ++ rs)%list
  end.

(** [duplicated(keep='first')]: a row is dropped when an equal row came
    before it. *)
Fixpoint drop_from (seen : list row) (l : list row) : list row :=
  match l with
  | [] => []
  | r :: l' =>
      if bool_decide (r ∈ seen) then drop_from seen l'
      else r :: drop_from (r :: seen) l'
  end.

(** [df.drop_duplicates(inplace=True)]. *)
Definition drop_duplicates (df : DataFrame) : DataFrame :=
  {| columns := columns df; rows := drop_from [] (rows df) |}.

(** The block that fills [flights] from the loaded [data]. *)
Definition read_flights (data : json) : result (list row) :=
  present ← py_in "activityCards" data;
  if present : bool then
    cards ← getitem data "activityCards";
    items ← iterate cards;
    collect_flights items
  else mret [].

(** What a stage prints when it ends. *)
Inductive report :=
| not_found (file : string)
| saved (count : Z) (file : string).

Definition process_flights (inputs : gmap string (option json)) (t : tables)
  : result (tables * report) :=
  match json_load inputs FLIGHT_DATA_FILE with
  | Raise FileNotFoundError => Ok (t, not_found FLIGHT_DATA_FILE)
  | Raise e => Raise e
  | Ok data =>
      flights ← read_flights data;
      let df := drop_duplicates (DataFrame_records FLIGHT_COLUMNS flights) in
      mret (to_csv df OUTPUT_FLIGHTS t, saved (len df) OUTPUT_FLIGHTS)
  end.

(** *** import_data.py: hotel stays *)

(** A Python value put in a cell. *)
Definition cell_of_json (v : json) : cell :=
  match v with
  | JNull => CNone
  | JBool b => CBool b
  | JInt z => CInt z
  | JFloat q => CFloat q
  | JStr s => CStr s
  | JArr _ | JObj _ => CObject
  end.

(** [props[0]]. *)
Definition first_item (props : json) : result json :=
  match props with
  | JArr (x :: _) => Ok x
  | JArr [] => Raise IndexError
  | JStr (String c _) => Ok (JStr (String c EmptyString))
  | JStr EmptyString => Raise IndexError
  | JObj _ => Raise KeyError
  | _ => Raise TypeError
  end.

(** The [try] block that computes [nights]: any exception gives 1.
    [to_datetime] returns [None] for [None], and a subtraction with [None]
    raises; a subtraction with NaT is NaT, whose [days] is NaN. *)
Definition nights (start end_ : json) : cell :=
  match to_datetime start with
  | DtRaise _ => CInt 1
  | s =>
      match to_datetime end_ with
      | DtRaise _ => CInt 1
      | e =>
          match e, s with
          | DtStamp te, DtStamp ts => CInt (timedelta_days te ts)
          | DtNone, _ | _, DtNone => CInt 1
          | _, _ => CNaN
          end
      end
  end.

(** [raw.get('city', raw.get('town', raw.get('village', 'Unknown')))]. *)
Definition batch_city (address_parts : json) : result json :=
  village ← get_default address_parts "village" (JStr "Unknown");
  town ← get_default address_parts "town" village;
  get_default address_parts "city" town.

(** The [try] block around the geocoder: latitude, longitude, address and
    city of a stay.  The first three are assigned before the city is looked
    up, so they survive an exception raised there. *)
Definition geocode_stay (name : json) : Q * Q * cell * cell :=
  match geocode name with
  | Ok (Some loc) =>
      let city :=
        match (parts ← get_default (JObj (raw loc)) "address" (JObj ∅);
               batch_city parts) with
        | Ok c => cell_of_json c
        | Raise _ => CStr "Unknown"
        end in
      (latitude loc, longitude loc, CStr (address loc), city)
  | _ => (0%Q, 0%Q, cell_of_json name, CStr "Unknown")
  end.

(** One turn of the loop over the edges. *)
Definition process_edge (edge : json) : result (option row) :=
  node ← get_default edge "node" (JObj ∅);
  type ← get_default node "type" (JObj ∅);
  code ← get type "code";
  match code with
  | JStr "STAY" =>
      start ← get node "startDate";
      end_ ← get node "endDate";
      props ← get_default node "properties" (JArr []);
      name ← (if truthy props then
                first ← first_item props;
                basic ← get_default first "basicInformation" (JObj ∅);
                get basic "name"
              else get node "description");
      let '(lat, lon, addr, city) := geocode_stay name in
      mret (Some (hotel_row (cell_of_json start) (cell_of_json name) city addr
                    (nights start end_) lat lon))
  | _ => mret None
  end.

Fixpoint collect_hotels (edges : list json) : result (list row) :=
  match edges with
  | [] => Ok []
  | edge :: edges' =>
      r ← process_edge edge;
      rs ← collect_hotels edges';
      mret (option_list r ++ rs)%list
  end.

(** The block that fills [hotels] from the loaded [data]. *)
Definition read_hotels (data : json) : result (list row) :=
  present ← py_in "data" data;
  if present : bool then
    d ← getitem data "data";
    customer ← getitem d "customer";
    loyalty ← getitem customer "loyaltyInformation";
    activity ← getitem loyalty "accountActivity";
    edges ← getitem activity "edges";
    items ← iterate edges;
    collect_hotels items
  else mret [].

Definition process_hotels (inputs : gmap string (option json)) (t : tables)
  : result (tables * report) :=
  match json_load inputs MARRIOTT_DATA_FILE with
  | Raise FileNotFoundError => Ok (t, not_found MARRIOTT_DATA_FILE)
  | Raise e => Raise e
  | Ok data =>
      hotels ← read_hotels data;
      let df := DataFrame_records HOTEL_COLUMNS hotels in
      mret (to_csv df OUTPUT_HOTELS t, saved (len df) OUTPUT_HOTELS)
  end.

(** *** app.py: the city proposed by the hotel form *)

(** [raw.get('city', raw.get('town', raw.get('village', raw.get('county', ''))))]. *)
Definition manual_city (address_parts : json) : result json :=
  county ← get_default address_parts "county" (JStr "");
  village ← get_default address_parts "village" county;
  town ← get_default address_parts "town" village;
  get_default address_parts "city" town.

(** [default_city] after the auto-populate block. *)
Definition default_city (found : option location) : result json :=
  match found with
  | Some loc =>
      parts ← get_default (JObj (raw loc)) "address" (JObj ∅);
      manual_city parts
  | None => Ok (JStr "")
  end.

(** *** app.py: route colours of the dashboard *)

(** [sorted([x, y])]. *)
Definition sorted2 (x y : string) : list string :=
  if String.ltb y x then [y; x] else [x; y].

(** ["-".join(sorted([x["Origin"], x["Destination"]]))]: comparing or joining
    anything but strings raises. *)
Definition Route_ID (x : row) : result string :=
  match x !! "Origin", x !! "Destination" with
  | Some (CStr o), Some (CStr d) => Ok (String.concat "-" (sorted2 o d))
  | _, _ => Raise TypeError
  end.

Fixpoint route_ids (l : list row) : result (list string) :=
  match l with
  | [] => Ok []
  | x :: l' => id ← Route_ID x; ids ← route_ids l'; mret (id :: ids)
  end.

(** [value_counts().to_dict()]. *)
Definition value_counts (ids : list string) : gmap string Z :=
  foldr (fun id m => <[id := default 0 (m !! id) + 1]> m) ∅ ids.

Definition get_color (freq : Z) : list Z :=
  if Z.leb 5 freq then [255; 0; 0; 200]
  else if Z.leb 3 freq then [255; 165; 0; 200]
  else [0; 128; 255; 150].

(** The [Frequency] column: [Route_ID] mapped through the counts, of which
    every identifier is a key. *)
Definition frequencies (ids : list string) : list Z :=
  let route_counts := value_counts ids in
  (fun id => default 0 (route_counts !! id)) <$> ids.

(** The [Color] column of the filtered frame [f_df].  On a frame without
    rows [DataFrame.apply] gives a frame, not a column, and the assignment
    to [f_df["Route_ID"]] raises. *)
Definition colors (f_df : DataFrame) : result (list (list Z)) :=
  match rows f_df with
  | [] => Raise ValueError
  | _ :: _ =>
      ids ← route_ids (rows f_df);
      mret (get_color <$> frequencies ids)
  end.

(** *** Inputs of a known shape *)

(** An activity card that has only a summary, with its five fields present
    as strings. *)
Definition summary_card (activity_type description activity_date origin dest : string) : json :=
  JObj {[ "summary" :=
            JObj (list_to_map
                    [ ("activityType", JStr activity_type);
                      ("transactionDescription", JStr description);
                      ("activityDate", JStr activity_date);
                      ("origin", JStr origin);
                      ("destination", JStr dest) ]) ]}.

(** The acceptance test as the specification words it, for such a card: the
    activity type is one of the two, the description does not hold REFUND in
    any letter case, the date and the two codes are present, and the codes,
    in upper case, differ. *)
Definition accepted (activity_type description activity_date origin dest : string) : bool :=
  (String.eqb activity_type "Airline" || String.eqb activity_type "Award Issuance")
  && negb (str_contains "REFUND" (upper description))
  && negb (String.eqb activity_date "")
  && negb (String.eqb origin "") && negb (String.eqb dest "")
  && negb (String.eqb (upper origin) (upper dest)).

(** The flight export that holds the cards [cards]. *)
Definition flight_export (cards : list json) : gmap string (option json) :=
  {[ FLIGHT_DATA_FILE := Some (JObj {[ "activityCards" := JArr cards ]}) ]}.

(** A stay edge: a node of type STAY with its two dates and a description,
    and no property list. *)
Definition stay_edge (start end_ description : json) : json :=
  JObj {[ "node" :=
            JObj (list_to_map
                    [ ("type", JObj {[ "code" := JStr "STAY" ]});
                      ("startDate", start); ("endDate", end_);
                      ("description", description) ]) ]}.

(** The fallback chain as the specification words it: the value of the first
    key of [keys] that the address parts have, [dflt] when they have none. *)
Fixpoint first_present (keys : list string) (parts : gmap string json) (dflt : json) : json :=
  match keys with
  | [] => dflt
  | k :: keys' =>
      match parts !! k with
      | Some v => v
      | None => first_present keys' parts dflt
      end
  end.

(** A code without the character the route identifier joins with; every
    three-letter code is one. *)
Fixpoint hyphen_free (s : string) : bool :=
  match s with
  | EmptyString => true
  | String c s' => negb (Ascii.eqb c "-") && hyphen_free s'
  end.

(** The specification's grouping: two flights are on the same route when
    they join the same two airports, in either direction. *)
Definition same_route (p q : string * string) : bool :=
  (String.eqb (fst p) (fst q) && String.eqb (snd p) (snd q))
  || (String.eqb (fst p) (snd q) && String.eqb (snd p) (fst q)).

(** How many of the flights [pairs] are on the route of [p]. *)
Definition route_count (pairs : list (string * string)) (p : string * string) : Z :=
  Z.of_nat (length (filter (fun q => same_route p q = true) pairs)).

(** The route identifier of a flight from [fst p] to [snd p]. *)
Definition route_key (p : string * string) : string :=
  String.concat "-" (sorted2 (fst p) (snd p)).

(** *** Example inputs *)

(** The form of the specification's example: JFK to LAX on 2025-03-01 with
    Delta, miles left at 0. *)
Definition jfk_lax_form : flight_form :=
  {| date_input := Date 2025 3 1; airline_input := "Delta";
     origin_input := "JFK"; dest_input := "LAX"; miles_input := 0 |}.

(** A form with a code the table does not have. *)
Definition unknown_form : flight_form :=
  {| date_input := Date 2025 3 1; airline_input := "Delta";
     origin_input := "JFK"; dest_input := "XXX"; miles_input := 0 |}.

(** A form with the same airport typed twice. *)
Definition round_trip_form : flight_form :=
  {| date_input := Date 2025 3 1; airline_input := "Delta";
     origin_input := "jfk"; dest_input := "JFK"; miles_input := 0 |}.


(** A grid of one flight whose airline was blanked. *)
Definition blanked_grid : DataFrame :=
  {| columns := FLIGHT_COLUMNS;
     rows := [flight_row (CStr "2025-03-01") CNone (CStr "JFK") (CStr "LAX") (CInt 2475)
                (40.6413, -73.7781)%Q (33.9416, -118.4085)%Q] |}.


(** An accepted card, a refund, a card with an unknown airport, and a card
    whose date is no date. *)
Definition card_jfk_lax : json :=
  summary_card "Airline" "Flight JFK-LAX" "2025-03-01" "jfk" "lax".
Definition card_refund : json :=
  summary_card "Airline" "Flight Credit REFUND" "2025-03-01" "JFK" "LAX".
Definition card_unknown_airport : json :=
  summary_card "Award Issuance" "Award" "2025-04-02" "JFK" "XXX".
Definition card_bad_date : json :=
  summary_card "Airline" "Flight JFK-LAX" "soon" "JFK" "LAX".

(** A place of which the geocoder knows the county only. *)
Definition county_only : location :=
  {| address := "Cook County, Illinois, United States";
     latitude := 41.8; longitude := -87.8;
     raw := {[ "address" := JObj {[ "county" := JStr "Cook County" ]} ]} |}.

(** Six flights: five between JFK and LAX, in both directions, and one from
    LAX to SFO. *)
Definition six_routes : list (string * string) :=
  [("JFK", "LAX"); ("LAX", "JFK"); ("JFK", "LAX"); ("LAX", "JFK"); ("JFK", "LAX");
   ("LAX", "SFO")].

Definition six_flights : DataFrame :=
  {| columns := FLIGHT_COLUMNS;
     rows := (fun p => flight_row (CStr "2025-03-01") (CStr "Delta")
                         (CStr (fst p)) (CStr (snd p)) (CInt 0) (0, 0)%Q (0, 0)%Q)
             <$> six_routes |}.

(** *** import_data.py: the run *)

(** The two calls under [if __name__ == "__main__"]: an exception of the
    first stage ends the run. *)
Definition main (inputs : gmap string (option json)) (t : tables)
  : result (tables * list report) :=
  flights_stage ← process_flights inputs t;
  hotels_stage ← process_hotels inputs (fst flights_stage);
  mret (fst hotels_stage, [snd flights_stage; snd hotels_stage]).

(** *** app.py: the hotel tab *)

(** [s.split(',')[0]]. *)
Fixpoint first_segment (s : string) : string :=
  match s with
  | EmptyString => EmptyString
  | String c s' => if Ascii.eqb c "," then EmptyString else String c (first_segment s')
  end.

(** What the search button shows. *)
Inductive search_message :=
| search_found (address_text : string)
| search_nothing
| search_failed (e : exn).

(** The body of [if st.button("Search Location")], on the location kept in
    [st.session_state['hotel_found']], if any. *)
Definition search_location (search_query : string) (hotel_found : option location)
  : option location * option search_message :=
  if truthy (JStr search_query) then
    match geocode (JStr search_query) with
    | Ok (Some loc) => (Some loc, Some (search_found (address loc)))
    | Ok None => (hotel_found, Some search_nothing)
    | Raise e => (hotel_found, Some (search_failed e))
    end
  else (hotel_found, None).

(** [default_name] after the auto-populate block. *)
Definition default_name (found : option location) : result json :=
  match found with
  | Some loc =>
      parts ← get_default (JObj (raw loc)) "address" (JObj ∅);
      tourism ← get_default parts "tourism" (JStr (first_segment (address loc)));
      get_default parts "hotel" tourism
  | None => Ok (JStr "")
  end.

(** [default_addr] after the auto-populate block. *)
Definition default_addr (found : option location) : string :=
  match found with
  | Some loc => address loc
  | None => ""
  end.

(** The widgets of the hotel form when it is submitted. *)
Record hotel_form := {
  h_date : date;
  h_name : string;
  h_city : string;
  h_addr : string;
  h_nights : Z
}.

(** The body of [if submitted]. *)
Definition log_hotel (form : hotel_form) (found : option location) (t : tables)
  : result (tables * message) :=
  let lat := match found with Some loc => latitude loc | None => 0%Q end in
  let lon := match found with Some loc => longitude loc | None => 0%Q end in
  let new_hotel :=
    DataFrame_records HOTEL_COLUMNS
      [hotel_row (CDate (h_date form)) (CStr (h_name form)) (CStr (h_city form))
         (CStr (h_addr form)) (CInt (h_nights form)) lat lon] in
  t' ← append_row new_hotel HOTELS_FILE t;
  mret (t', success "Hotel Saved!").

(** *** app.py: the editable grids *)

(** [df.empty]: no row or no column. *)
Definition df_empty (df : DataFrame) : bool :=
  match columns df, rows df with
  | _ :: _, _ :: _ => false
  | _, _ => true
  end.

(** Whether the grid of [file] is drawn: [load_data(file, [])] and
    [if not df.empty]. *)
Definition grid_offered (file : string) (t : tables) : result bool :=
  df_editor ← load_data t file [];
  mret (negb (df_empty df_editor)).

(** The body of the two "Save ... Changes" buttons, for the table [edited_df]
    that the grid returns. *)
Definition save_changes (edited_df : DataFrame) (file : string) (t : tables) : tables :=
  save_data edited_df file t.

(** *** More inputs of a known shape *)

(** An activity card with a summary and flight details, all fields present
    as strings. *)
Definition detailed_card
    (activity_type description activity_date origin dest : string)
    (travel_date flight_origin flight_dest : string) : json :=
  JObj (<[ "details" :=
             JObj {[ "flightInfo" :=
                       JObj (list_to_map
                               [ ("travelDate", JStr travel_date);
                                 ("origin", JStr flight_origin);
                                 ("destination", JStr flight_dest) ]) ]} ]>
        {[ "summary" :=
             JObj (list_to_map
                     [ ("activityType", JStr activity_type);
                       ("transactionDescription", JStr description);
                       ("activityDate", JStr activity_date);
                       ("origin", JStr origin);
                       ("destination", JStr dest) ]) ]}).

(** [x or y] on strings. *)
Definition or_else (x y : string) : string := if String.eqb x "" then y else x.

(** An edge whose node has the type code [code], two dates, a description
    and the property list [props]. *)
Definition activity_edge (code : string) (start end_ description props : json) : json :=
  JObj {[ "node" :=
            JObj (list_to_map
                    [ ("type", JObj {[ "code" := JStr code ]});
                      ("startDate", start); ("endDate", end_);
                      ("description", description);
                      ("properties", props) ]) ]}.

(** A property entry with the display name [name]. *)
Definition named_property (name : json) : json :=
  JObj {[ "basicInformation" := JObj {[ "name" := name ]} ]}.

(** The hotel export that holds the edges [edges]. *)
Definition hotel_export (edges : list json) : gmap string (option json) :=
  {[ MARRIOTT_DATA_FILE :=
       Some (JObj {[ "data" :=
               JObj {[ "customer" :=
                 JObj {[ "loyaltyInformation" :=
                   JObj {[ "accountActivity" :=
                     JObj {[ "edges" := JArr edges ]} ]} ]} ]} ]}) ]}.

(** The dictionary appended to [hotels] for a stay called [name]. *)
Definition stay_row (start end_ name : json) : row :=
  let '(lat, lon, addr, city) := geocode_stay name in
  hotel_row (cell_of_json start) (cell_of_json name) city addr (nights start end_) lat lon.

(** The name the loop looks up for a node with the property list [props]
    and the description [description]. *)
Definition stay_name (props description : json) : result json :=
  if truthy props then
    first ← first_item props;
    basic ← get_default first "basicInformation" (JObj ∅);
    get basic "name"
  else Ok description.

(** *** app.py: the scoreboard of the dashboard *)

(** The scoreboard is modelled on the two frames as they are after the
    conversion of their Date columns, every row with a date (a day number),
    Miles and Nights being integer columns and Destination a text column. *)
Record flight_entry := { flight_day : Z; flight_destination : string; flight_miles : Z }.
Record hotel_entry := { hotel_day : Z; hotel_nights : Z }.

(** The four metrics. *)
Record scoreboard := {
  total_miles : Z;
  flights_shown : Z;
  nights_shown : Z;
  unique_cities : Z
}.

(** What the first tab shows: the note that no flight is logged, or the
    scoreboard. *)
Inductive dashboard_view :=
| no_flights_logged
| board (s : scoreboard).

(** [df["Date"].min()] and [.max()] of a frame whose first row has the day
    [first]. *)
Definition min_date (first : Z) (others : list Z) : Z := foldr Z.min first others.
Definition max_date (first : Z) (others : list Z) : Z := foldr Z.max first others.

(** One entry of the masks: [(day >= start_date) & (day <= end_date)]. *)
Definition in_window (window : Z * Z) (day : Z) : bool :=
  Z.leb (fst window) day && Z.leb day (snd window).

(** [column.sum()]. *)
Definition column_sum (l : list Z) : Z := foldr Z.add 0 l.

(** [column.nunique()]. *)
Definition nunique (l : list string) : Z := Z.of_nat (length (remove_dups l)).

(** The window of dates: the slider is drawn, and its value [slider] used,
    only when the flights span more than one day. *)
Definition date_window (slider : Z * Z) (first : Z) (others : list Z) : Z * Z :=
  if Z.ltb (min_date first others) (max_date first others) then slider
  else (min_date first others, max_date first others).

(** The first tab up to the scoreboard, for the value [slider] of the range
    slider. *)
Definition dashboard (slider : Z * Z) (df_flights : list flight_entry)
    (df_hotels : list hotel_entry) : dashboard_view :=
  match df_flights with
  | [] => no_flights_logged
  | f :: fs =>
      let window := date_window slider (flight_day f) (flight_day <$> fs) in
      let f_df := filter (fun x => in_window window (flight_day x) = true) df_flights in
      let h_df := filter (fun x => in_window window (hotel_day x) = true) df_hotels in
      board {| total_miles := column_sum (flight_miles <$> f_df);
               flights_shown := Z.of_nat (length f_df);
               nights_shown := column_sum (hotel_nights <$> h_df);
               unique_cities := nunique (flight_destination <$> f_df) |}
  end.

(** *** More example inputs *)

(** A hotel form as it is submitted. *)
Definition meridien_form : hotel_form :=
  {| h_date := Date 2025 3 1; h_name := "Le Meridien Clayton"; h_city := "Clayton";
     h_addr := "7730 Bonhomme Avenue"; h_nights := 2 |}.

(** The six flights, each flown the other way. *)
Definition six_flights_reversed : DataFrame :=
  {| columns := FLIGHT_COLUMNS;
     rows := (fun p => flight_row (CStr "2025-03-01") (CStr "Delta")
                         (CStr (snd p)) (CStr (fst p)) (CInt 0) (0, 0)%Q (0, 0)%Q)
             <$> six_routes |}.

(** Two flights, on day 20148 (2025-03-01) and a week later, and three
    stays: one before the first flight, one between the two, one after the
    last. *)
Definition two_flights : list flight_entry :=
  [ {| flight_day := 20148; flight_destination := "LAX"; flight_miles := 2475 |};
    {| flight_day := 20155; flight_destination := "JFK"; flight_miles := 2475 |} ].

Definition three_stays : list hotel_entry :=
  [ {| hotel_day := 20100; hotel_nights := 3 |};
    {| hotel_day := 20150; hotel_nights := 2 |};
    {| hotel_day := 20200; hotel_nights := 4 |} ].

(** * Properties *)

(** ** The result monad *)

Lemma bind_Ok {A B} (m : result A) (f : A -> result B) (b : B) :
  m ≫= f = Ok b <-> exists a, m = Ok a /\ f a = Ok b.
Proof.
  destruct m as [a|e]; simpl; split.
  - intros H. exists a. split; [reflexivity | exact H].
  - intros (a' & Ha & H). injection Ha as ->. exact H.
  - discriminate.
  - intros (a' & Ha & _). discriminate.
Qed.

Lemma bind_Raise {A B} (m : result A) (f : A -> result B) (e : exn) :
  m = Raise e -> m ≫= f = Raise e.
Proof. intros ->. reflexivity. Qed.

(** ** The CSV text *)

Lemma parse_column_length fields : length (parse_column fields) = length fields.
Proof.
  unfold parse_column.
  destruct (forallb is_int fields), (forallb is_number_or_blank fields),
    (forallb is_bool_or_blank fields); apply length_fmap.
Qed.


Lemma fmap_agree {A B} (f g : A -> B) (l : list A) :
  Forall (fun x => f x = g x) l -> f <$> l = g <$> l.
Proof. induction 1 as [|x l Hx _ IH]; [reflexivity|]. rewrite !fmap_cons, Hx, IH. reflexivity. Qed.

Lemma forallb_Forall {A} (p : A -> bool) (l : list A) :
  forallb p l = true <-> Forall (fun x => p x = true) l.
Proof. rewrite forallb_forall, Forall_forall. setoid_rewrite list_elem_of_In. reflexivity. Qed.

(** In a column of one kind every field reads as its own kind. *)
Lemma parse_column_same_kind fields :
  same_kind fields = true -> parse_column fields = read_field <$> fields.
Proof.
  unfold same_kind, parse_column. intros H.
  destruct (forallb is_int fields) eqn:Hint; [reflexivity|].
  destruct (forallb is_number_or_blank fields) eqn:Hnum.
  - apply forallb_Forall in Hnum. simpl in H.
    apply orb_true_iff in H as [H|H]; [apply orb_true_iff in H as [H|H]|];
      apply forallb_Forall in H; apply fmap_agree;
      eapply Forall_impl; try (apply Forall_and; split; [exact H | exact Hnum]);
      intros [s [|z|q|n|b|]] [H1 H2]; (reflexivity || discriminate).
  - destruct (forallb is_bool_or_blank fields) eqn:Hbool; [reflexivity|].
    simpl in H.
    apply orb_true_iff in H as [H|H]; [apply orb_true_iff in H as [H|H]|].
    + apply forallb_Forall in H.
      assert (forallb is_number_or_blank fields = true) as Hc; [|congruence].
      apply forallb_Forall. eapply Forall_impl; [exact H|].
      intros [s [|z|q|n|b|]] H1; (reflexivity || discriminate).
    + apply forallb_Forall in H.
      assert (forallb is_bool_or_blank fields = true) as Hc; [|congruence].
      apply forallb_Forall. eapply Forall_impl; [exact H|].
      intros [s [|z|q|n|b|]] H1; (reflexivity || discriminate).
    + apply forallb_Forall in H. apply fmap_agree. eapply Forall_impl; [exact H|].
      intros [s [|z|q|n|b|]] H1; (reflexivity || discriminate).
Qed.

(** A blank field reads as NaN whatever the rest of its column is. *)
Lemma parse_column_blank fields i f :
  fields !! i = Some f -> kind f = KBlank -> parse_column fields !! i = Some CNaN.
Proof.
  intros Hi Hk. unfold parse_column.
  destruct (forallb is_int fields) eqn:Hint.
  - apply forallb_Forall in Hint. rewrite Forall_forall in Hint.
    specialize (Hint f (list_elem_of_lookup_2 _ _ _ Hi)).
    unfold is_int in Hint. rewrite Hk in Hint. discriminate.
  - destruct (forallb is_number_or_blank fields), (forallb is_bool_or_blank fields);
      rewrite list_lookup_fmap, Hi; unfold read_field; simpl; rewrite Hk; reflexivity.
Qed.

Lemma column_fields_lookup (df : DataFrame) c i (r : row) :
  rows df !! i = Some r -> column_fields df c !! i = Some (written (default CNaN (r !! c))).
Proof. intros H. unfold column_fields. rewrite list_lookup_fmap, H. reflexivity. Qed.

Lemma parse_frame_length df : length (rows (parse_frame df)) = length (rows df).
Proof. unfold parse_frame. cbn [rows]. rewrite length_fmap, length_seq. reflexivity. Qed.

(** The rows of the frame that is read, one by one. *)
Lemma parse_frame_row (df : DataFrame) i (r : row) :
  NoDup (columns df) -> rows df !! i = Some r ->
  exists r' : row,
    rows (parse_frame df) !! i = Some r' /\
    (forall c, c ∈ columns df ->
       r' !! c = Some (default CNaN (parse_column (column_fields df c) !! i))) /\
    (forall c, c ∉ columns df -> r' !! c = None).
Proof.
  intros Hnd Hi. eexists. split; [|split].
  - unfold parse_frame. cbn [rows]. rewrite list_lookup_fmap.
    rewrite lookup_seq_lt by (eapply lookup_lt_Some; exact Hi). reflexivity.
  - intros c Hc. apply elem_of_list_to_map.
    + rewrite <- list_fmap_compose. simpl. rewrite list_fmap_id. exact Hnd.
    + apply list_elem_of_fmap. exists c. split; [reflexivity | exact Hc].
  - intros c Hc. apply not_elem_of_list_to_map.
    rewrite <- list_fmap_compose. simpl. rewrite list_fmap_id. exact Hc.
Qed.















(** The codes of the airport table are plain text. *)
Lemma airport_code_plain code (o : coord) :
  AIRPORT_DB !! code = Some o -> kind_of_text code = KText.
Proof.
  intros H. unfold AIRPORT_DB in H. apply elem_of_list_to_map_2 in H.
  repeat (apply elem_of_cons in H as [Heq|H]; [injection Heq as -> _; reflexivity|]).
  inversion H.
Qed.

(** ** The store *)

Lemma read_csv_Ok (t : tables) file df :
  read_csv t file = Ok df <->
  exists w, t !! file = Some w /\ columns w <> [] /\ df = parse_frame w.
Proof.
  unfold read_csv. destruct (t !! file) as [w|].
  - destruct (columns w) as [|c cs] eqn:Hc; split.
    + discriminate.
    + intros (w' & [= <-] & H & _). congruence.
    + intros [= <-]. exists w. rewrite Hc. repeat split. discriminate.
    + intros (w' & [= <-] & _ & ->). reflexivity.
  - split; [discriminate | intros (w & H & _); discriminate].
Qed.

Lemma load_data_absent (t : tables) file cols :
  t !! file = None -> load_data t file cols = Ok (DataFrame_empty cols).
Proof. intros H. unfold load_data, read_csv. rewrite H. reflexivity. Qed.

Lemma load_data_present (t : tables) file cols w :
  t !! file = Some w -> columns w <> [] -> load_data t file cols = Ok (parse_frame w).
Proof.
  intros H Hc. unfold load_data.
  replace (read_csv t file) with (Ok (parse_frame w)); [reflexivity|].
  symmetry. apply read_csv_Ok. exists w. repeat split; assumption.
Qed.

Lemma load_data_Ok (t : tables) file cols df :
  load_data t file cols = Ok df ->
  (t !! file = None /\ df = DataFrame_empty cols) \/ read_csv t file = Ok df.
Proof.
  unfold load_data. destruct (read_csv t file) as [df'|e] eqn:Hr.
  - intros [= ->]. right. reflexivity.
  - destruct e; try discriminate. intros [= <-]. left. split; [|reflexivity].
    unfold read_csv in Hr. destruct (t !! file) as [d|]; [|reflexivity].
    destruct (columns d); discriminate.
Qed.








(** ** The distance *)

Lemma calculate_distance_known a b (p q : coord) :
  AIRPORT_DB !! a = Some p -> AIRPORT_DB !! b = Some q ->
  calculate_distance a b = geodesic_miles p q.
Proof. intros Ha Hb. unfold calculate_distance. rewrite Ha, Hb. reflexivity. Qed.

Lemma calculate_distance_absent a b :
  AIRPORT_DB !! a = None \/ AIRPORT_DB !! b = None -> calculate_distance a b = 0.
Proof.
  intros H. unfold calculate_distance.
  destruct (AIRPORT_DB !! a), (AIRPORT_DB !! b); try reflexivity.
  destruct H; discriminate.
Qed.

(** ** The flight form *)

Lemma flight_row_lookups d a o ds m (p q : coord) :
  let r := flight_row d a o ds m p q in
  r !! "Date" = Some d /\ r !! "Airline" = Some a /\
  r !! "Origin" = Some o /\ r !! "Destination" = Some ds /\
  r !! "Miles" = Some m /\
  r !! "Origin_Lat" = Some (CFloat (fst p)) /\ r !! "Origin_Lon" = Some (CFloat (snd p)) /\
  r !! "Dest_Lat" = Some (CFloat (fst q)) /\ r !! "Dest_Lon" = Some (CFloat (snd q)).
Proof. repeat split; reflexivity. Qed.

Lemma flight_row_Miles d a o ds m (p q : coord) :
  flight_row d a o ds m p q !! "Miles" = Some m.
Proof. reflexivity. Qed.

Lemma save_flight_reject form (t : tables) :
  AIRPORT_DB !! upper (origin_input form) = None \/
  AIRPORT_DB !! upper (dest_input form) = None ->
  save_flight form t = Ok (t, error "Unknown Airport Code.").
Proof.
  intros H. unfold save_flight.
  destruct (AIRPORT_DB !! upper (origin_input form)) as [o|];
    destruct (AIRPORT_DB !! upper (dest_input form)) as [d|];
    try reflexivity.
  destruct H; discriminate.
Qed.

Lemma save_flight_accept form (t : tables) o d df_curr :
  AIRPORT_DB !! upper (origin_input form) = Some o ->
  AIRPORT_DB !! upper (dest_input form) = Some d ->
  load_data t FLIGHTS_FILE FLIGHT_COLUMNS = Ok df_curr ->
  save_flight form t =
    Ok (<[FLIGHTS_FILE :=
            concat df_curr (DataFrame_records FLIGHT_COLUMNS [form_row form o d])]> t,
        success ("Added " ++ upper (origin_input form) ++ "->" ++ upper (dest_input form))).
Proof.
  intros Ho Hd Hload. unfold save_flight. rewrite Ho, Hd.
  unfold append_row. simpl columns. rewrite Hload. reflexivity.
Qed.

(** When the current table cannot be read, the handler ends with the
    exception and writes nothing. *)
Lemma save_flight_unreadable form (t : tables) o d e :
  AIRPORT_DB !! upper (origin_input form) = Some o ->
  AIRPORT_DB !! upper (dest_input form) = Some d ->
  load_data t FLIGHTS_FILE FLIGHT_COLUMNS = Raise e ->
  save_flight form t = Raise e.
Proof.
  intros Ho Hd Hload. unfold save_flight. rewrite Ho, Hd.
  unfold append_row. simpl columns. rewrite Hload. reflexivity.
Qed.

(** C1. A flight form whose origin or destination is not in the airport
    table is refused with the message "Unknown Airport Code." and the tables
    are left as they were.  Otherwise the row is put after the rows of the
    current table: its Miles are the geodesic distance of the two airports
    when 0 was entered and the entered number otherwise, and its four
    coordinates are those of the table.  For JFK to LAX with 0 miles and no
    file yet, the file holds the one row whose Miles are the distance between
    (40.6413, -73.7781) and (33.9416, -118.4085). *)
Theorem save_flight_spec (form : flight_form) (t : tables) :
  (AIRPORT_DB !! upper (origin_input form) = None \/
   AIRPORT_DB !! upper (dest_input form) = None ->
     save_flight form t = Ok (t, error "Unknown Airport Code.")) /\
  (forall o d df_curr,
     AIRPORT_DB !! upper (origin_input form) = Some o ->
     AIRPORT_DB !! upper (dest_input form) = Some d ->
     load_data t FLIGHTS_FILE FLIGHT_COLUMNS = Ok df_curr ->
     exists t' msg df new_row,
       save_flight form t = Ok (t', msg) /\
       t' !! FLIGHTS_FILE = Some df /\
       rows df = (rows df_curr ++ [new_row])%list /\
       new_row !! "Miles" =
         Some (CInt (if Z.eqb (miles_input form) 0 then geodesic_miles o d
                     else miles_input form)) /\
       new_row !! "Origin_Lat" = Some (CFloat (fst o)) /\
       new_row !! "Origin_Lon" = Some (CFloat (snd o)) /\
       new_row !! "Dest_Lat" = Some (CFloat (fst d)) /\
       new_row !! "Dest_Lon" = Some (CFloat (snd d)) /\
       new_row !! "Origin" = Some (CStr (upper (origin_input form))) /\
       new_row !! "Destination" = Some (CStr (upper (dest_input form)))) /\
  (forall day airline,
     save_flight
       {| date_input := day; airline_input := airline;
          origin_input := "JFK"; dest_input := "LAX"; miles_input := 0 |} ∅
     = Ok ({[ FLIGHTS_FILE :=
               {| columns := FLIGHT_COLUMNS;
                  rows := [flight_row (CDate day) (CStr airline) (CStr "JFK") (CStr "LAX")
                             (CInt (geodesic_miles (40.6413, -73.7781)%Q
                                                   (33.9416, -118.4085)%Q))
                             (40.6413, -73.7781)%Q (33.9416, -118.4085)%Q] |} ]},
           success "Added JFK->LAX")).
Proof.
  split; [apply save_flight_reject | split].
  - intros o d df_curr Ho Hd Hload.
    eexists _, _, _, (form_row form o d).
    split; [apply (save_flight_accept form t o d df_curr Ho Hd Hload)|].
    split; [apply lookup_insert_eq|].
    split; [reflexivity|].
    split; [|repeat split; reflexivity].
    unfold form_row. rewrite flight_row_Miles, (calculate_distance_known _ _ o d Ho Hd).
    reflexivity.
  - intros day airline. reflexivity.
Qed.

(** C5, the manual path.  The form does not compare the two codes: with the
    same known airport typed twice, the row that is written has equal Origin
    and Destination. *)
Theorem save_flight_same_airport (form : flight_form) (t : tables) (o : coord) df_curr :
  upper (origin_input form) = upper (dest_input form) ->
  AIRPORT_DB !! upper (origin_input form) = Some o ->
  load_data t FLIGHTS_FILE FLIGHT_COLUMNS = Ok df_curr ->
  exists t' df new_row,
    save_flight form t = Ok (t', success ("Added " ++ upper (origin_input form)
                                           ++ "->" ++ upper (origin_input form))) /\
    t' !! FLIGHTS_FILE = Some df /\
    new_row ∈ rows df /\
    new_row !! "Origin" = Some (CStr (upper (origin_input form))) /\
    new_row !! "Destination" = Some (CStr (upper (origin_input form))).
Proof.
  intros Heq Ho Hload.
  assert (Hd : AIRPORT_DB !! upper (dest_input form) = Some o) by (rewrite <- Heq; exact Ho).
  eexists _, _, (form_row form o o).
  split; [rewrite (save_flight_accept form t o o df_curr Ho Hd Hload), <- Heq; reflexivity|].
  split; [apply lookup_insert_eq|].
  split; [unfold concat; cbn [rows DataFrame_records]; apply elem_of_app; right; left|].
  split; [reflexivity|]. unfold form_row. rewrite <- Heq. reflexivity.
Qed.


(** ** Batch flights: one card *)

Lemma upper_nonempty s : upper s = "" <-> s = "".
Proof. destruct s; simpl; split; intros H; (reflexivity || discriminate). Qed.

Lemma truthy_JStr s : truthy (JStr s) = true <-> s <> "".
Proof.
  simpl. destruct (String.eqb_spec s ""); simpl; split; intros; (reflexivity || congruence).
Qed.

Lemma batch_row_lookups date_text origin dest :
  let r := batch_row date_text origin dest in
  r !! "Date" = Some (CStr date_text) /\
  r !! "Airline" = Some (CStr "American Airlines") /\
  r !! "Origin" = Some (CStr origin) /\
  r !! "Destination" = Some (CStr dest).
Proof. unfold batch_row. destruct (locate origin dest) as [[miles o] d]. repeat split; reflexivity. Qed.

(** A card yields a row only through both tests of the loop. *)
Lemma process_card_Some card r :
  process_card card = Ok (Some r) ->
  exists summary details activity_type description travel_date activity_date
         origin_value dest_value origin dest date_text,
    get_default card "summary" (JObj ∅) = Ok summary /\
    get summary "activityType" = Ok activity_type /\
    get_default summary "transactionDescription" (JStr "") = Ok description /\
    get details "travelDate" = Ok travel_date /\
    get summary "activityDate" = Ok activity_date /\
    upper_method origin_value = Ok origin /\
    upper_method dest_value = Ok dest /\
    is_flight_activity activity_type = true /\
    (exists desc, upper_method description = Ok desc /\ str_contains "REFUND" desc = false) /\
    truthy (py_or travel_date activity_date) = true /\
    origin <> "" /\ dest <> "" /\ origin <> dest /\
    format_date (py_or travel_date activity_date) = Ok date_text /\
    r = batch_row date_text origin dest.
Proof.
  unfold process_card. intros H.
  apply bind_Ok in H as (summary & Hsummary & H).
  apply bind_Ok in H as (card_details & Hcd & H).
  apply bind_Ok in H as (details & Hdetails & H).
  apply bind_Ok in H as (activity_type & Hat & H).
  apply bind_Ok in H as (description & Hdescription & H).
  apply bind_Ok in H as (desc & Hdesc & H).
  destruct (is_flight_activity activity_type && negb (str_contains "REFUND" desc)) eqn:Hfilter;
    [|discriminate].
  apply andb_true_iff in Hfilter as [Hact Href]. apply negb_true_iff in Href.
  apply bind_Ok in H as (travel_date & Htd & H).
  apply bind_Ok in H as (activity_date & Had & H).
  apply bind_Ok in H as (details_origin & Hdo & H).
  apply bind_Ok in H as (summary_origin & Hso & H).
  apply bind_Ok in H as (origin & Horigin & H).
  apply bind_Ok in H as (details_dest & Hdd & H).
  apply bind_Ok in H as (summary_dest & Hsd & H).
  apply bind_Ok in H as (dest & Hdest & H).
  match type of H with (if ?c then _ else _) = _ => destruct c eqn:Hkeep end; [|discriminate].
  apply andb_true_iff in Hkeep as [Hkeep Hne].
  apply andb_true_iff in Hkeep as [Hkeep Hd].
  apply andb_true_iff in Hkeep as [Hdate Ho].
  apply bind_Ok in H as (date_text & Hfmt & H).
  injection H as <-.
  exists summary, details, activity_type, description, travel_date, activity_date.
  eexists _, _, origin, dest, date_text.
  repeat split; try eassumption.
  - exists desc. split; assumption.
  - apply truthy_JStr. exact Ho.
  - apply truthy_JStr. exact Hd.
  - apply negb_true_iff, String.eqb_neq in Hne. exact Hne.
Qed.

(** The importer compares the two codes: a row it appends has two different
    ones. *)
Lemma process_card_distinct card r :
  process_card card = Ok (Some r) ->
  exists origin dest,
    r !! "Origin" = Some (CStr origin) /\ r !! "Destination" = Some (CStr dest) /\
    origin <> dest.
Proof.
  intros H. apply process_card_Some in H
    as (? & ? & ? & ? & ? & ? & ? & ? & origin & dest & date_text & H).
  destruct H as (_ & _ & _ & _ & _ & _ & _ & _ & _ & _ & _ & _ & Hne & _ & ->).
  exists origin, dest.
  pose proof (batch_row_lookups date_text origin dest) as (_ & _ & Ho & Hd).
  split; [exact Ho | split; [exact Hd | exact Hne]].
Qed.

Lemma locate_absent origin dest :
  AIRPORT_DB !! origin = None \/ AIRPORT_DB !! dest = None ->
  locate origin dest = (0, (0, 0)%Q, (0, 0)%Q).
Proof.
  intros H. unfold locate.
  destruct (AIRPORT_DB !! origin), (AIRPORT_DB !! dest); try reflexivity.
  destruct H; discriminate.
Qed.

(** C7. The distance of two codes is 0 as soon as one of them is not in the
    airport table, and no exception is raised; a row the importer appends for
    such a pair has Miles 0 and 0.0 in its four coordinates. *)
Theorem distance_degrades_to_zero :
  (forall a b,
     AIRPORT_DB !! a = None \/ AIRPORT_DB !! b = None -> calculate_distance a b = 0) /\
  (forall card r origin dest,
     process_card card = Ok (Some r) ->
     r !! "Origin" = Some (CStr origin) -> r !! "Destination" = Some (CStr dest) ->
     AIRPORT_DB !! origin = None \/ AIRPORT_DB !! dest = None ->
     r !! "Miles" = Some (CInt 0) /\
     r !! "Origin_Lat" = Some (CFloat 0) /\ r !! "Origin_Lon" = Some (CFloat 0) /\
     r !! "Dest_Lat" = Some (CFloat 0) /\ r !! "Dest_Lon" = Some (CFloat 0)).
Proof.
  split; [exact calculate_distance_absent|].
  intros card r origin dest H Ho Hd Habs.
  apply process_card_Some in H
    as (? & ? & ? & ? & ? & ? & ? & ? & origin' & dest' & date_text & H).
  destruct H as (_ & _ & _ & _ & _ & _ & _ & _ & _ & _ & _ & _ & _ & _ & ->).
  pose proof (batch_row_lookups date_text origin' dest') as (_ & _ & Ho' & Hd').
  rewrite Ho' in Ho. rewrite Hd' in Hd. injection Ho as ->. injection Hd as ->.
  unfold batch_row. rewrite (locate_absent _ _ Habs). repeat split; reflexivity.
Qed.

(** ** Batch flights: the loop and the duplicates *)

Lemma collect_flights_rejected cards :
  Forall (fun card => process_card card = Ok None) cards ->
  collect_flights cards = Ok [].
Proof.
  induction 1 as [|card cards Hcard _ IH]; [reflexivity|].
  simpl. rewrite Hcard. simpl. rewrite IH. reflexivity.
Qed.

Lemma collect_flights_Raise cards card e :
  card ∈ cards -> process_card card = Raise e ->
  exists e', collect_flights cards = Raise e'.
Proof.
  intros Hin Hcard. induction Hin as [card cards|card c cards _ IH]; simpl.
  - rewrite Hcard. exists e. reflexivity.
  - destruct (process_card c) as [r|e0]; simpl; [|exists e0; reflexivity].
    destruct (IH Hcard) as [e' ->]. exists e'. reflexivity.
Qed.

(** Every row the loop collects was appended for some card. *)
Lemma collect_flights_from_cards cards flights :
  collect_flights cards = Ok flights ->
  forall r, r ∈ flights -> exists card, card ∈ cards /\ process_card card = Ok (Some r).
Proof.
  revert flights. induction cards as [|card cards IH]; simpl; intros flights H r Hr.
  - injection H as <-. inversion Hr.
  - apply bind_Ok in H as (o & Ho & H). apply bind_Ok in H as (rs & Hrs & H).
    injection H as <-. apply elem_of_app in Hr as [Hr|Hr].
    + destruct o as [r'|]; simpl in Hr; [|inversion Hr].
      apply list_elem_of_singleton in Hr as ->. exists card. split; [left | exact Ho].
    + destruct (IH rs Hrs r Hr) as (c & Hc & Hp). exists c. split; [right; exact Hc | exact Hp].
Qed.

Lemma drop_from_elem seen l (r : row) :
  r ∈ drop_from seen l <-> r ∈ l /\ r ∉ seen.
Proof.
  revert seen. induction l as [|x l IH]; intros seen; simpl.
  - split; [intros H; inversion H | intros [H _]; inversion H].
  - case_bool_decide as Hx.
    + rewrite IH. split.
      * intros [H Hn]. split; [right; exact H | exact Hn].
      * intros [H Hn]. split; [|exact Hn].
        apply elem_of_cons in H as [->|H]; [contradiction | exact H].
    + rewrite elem_of_cons, IH. split.
      * intros [->|[H Hn]].
        -- split; [left | exact Hx].
        -- split; [right; exact H | intros Hs; apply Hn; right; exact Hs].
      * intros [H Hn]. apply elem_of_cons in H as [->|H]; [left; reflexivity|].
        destruct (decide (r = x)) as [->|Hne]; [left; reflexivity|].
        right. split; [exact H|].
        intros Hs. apply elem_of_cons in Hs as [?|?]; contradiction.
Qed.

Lemma drop_from_NoDup seen (l : list row) : NoDup (drop_from seen l).
Proof.
  revert seen. induction l as [|x l IH]; intros seen; simpl; [constructor|].
  case_bool_decide as Hx; [apply IH|].
  constructor; [|apply IH].
  rewrite drop_from_elem. intros [_ Hn]. apply Hn. left.
Qed.

Lemma drop_from_sublist seen (l : list row) : sublist (drop_from seen l) l.
Proof.
  revert seen. induction l as [|x l IH]; intros seen; simpl; [constructor|].
  case_bool_decide; [apply sublist_cons, IH | apply sublist_skip, IH].
Qed.

(** What a run of the flight stage that ends normally has done. *)
Lemma process_flights_Ok inputs (t t' : tables) rep :
  process_flights inputs t = Ok (t', rep) ->
  (inputs !! FLIGHT_DATA_FILE = None /\ t' = t /\ rep = not_found FLIGHT_DATA_FILE) \/
  (exists data flights,
     json_load inputs FLIGHT_DATA_FILE = Ok data /\
     read_flights data = Ok flights /\
     t' = <[OUTPUT_FLIGHTS := drop_duplicates (DataFrame_records FLIGHT_COLUMNS flights)]> t /\
     rep = saved (len (drop_duplicates (DataFrame_records FLIGHT_COLUMNS flights))) OUTPUT_FLIGHTS).
Proof.
  unfold process_flights. destruct (json_load inputs FLIGHT_DATA_FILE) as [data|e] eqn:Hload.
  - intros H. apply bind_Ok in H as (flights & Hflights & H). injection H as <- <-.
    right. exists data, flights. repeat split. exact Hflights.
  - destruct e; try discriminate. intros [= <- <-]. left. repeat split.
    unfold json_load in Hload. destruct (inputs !! FLIGHT_DATA_FILE) as [[?|]|]; (discriminate || reflexivity).
Qed.

(** C8. The rows of the table the flight stage writes are the collected
    rows without repetition: no two of them are equal, that is, agree on
    every column; a row is written exactly when it was collected, however
    many cards produced it; the rows keep the order of their first
    occurrence; the count that is reported is the number of written rows. *)
Theorem batch_deduplicated inputs (t t' : tables) (count : Z) (file : string) :
  process_flights inputs t = Ok (t', saved count file) ->
  exists data flights df,
    json_load inputs FLIGHT_DATA_FILE = Ok data /\
    read_flights data = Ok flights /\
    file = OUTPUT_FLIGHTS /\
    t' !! OUTPUT_FLIGHTS = Some df /\
    NoDup (rows df) /\
    (forall i j r1 r2, rows df !! i = Some r1 -> rows df !! j = Some r2 -> i <> j ->
       ~ (forall column : string, r1 !! column = r2 !! column)) /\
    (forall r, r ∈ rows df <-> r ∈ flights) /\
    sublist (rows df) flights /\
    count = len df.
Proof.
  intros H. apply process_flights_Ok in H as [(_ & _ & Hrep)|(data & flights & Hload & Hread & -> & Hrep)];
    [discriminate|].
  injection Hrep as -> ->.
  exists data, flights, (drop_duplicates (DataFrame_records FLIGHT_COLUMNS flights)).
  assert (Hnd : NoDup (rows (drop_duplicates (DataFrame_records FLIGHT_COLUMNS flights))))
    by apply drop_from_NoDup.
  repeat split; try assumption.
  - apply lookup_insert_eq.
  - intros i j r1 r2 Hi Hj Hij Heq. apply Hij.
    assert (r1 = r2) as <- by (apply map_eq; exact Heq).
    exact (NoDup_lookup _ _ _ _ Hnd Hi Hj).
  - intros Hr. apply drop_from_elem in Hr. exact (proj1 Hr).
  - intros Hr. apply drop_from_elem. split; [exact Hr | intros Hn; inversion Hn].
  - apply drop_from_sublist.
Qed.

(** C10. When the flight export is a dictionary and no card passes, because
    it has no 'activityCards' key or because every card of the list is
    rejected, the stage still replaces the output file: it writes the table
    with no column and no row, whatever the file held before, and reports 0
    rows. *)
Theorem process_flights_nothing_accepted inputs (t : tables) (m : gmap string json) :
  inputs !! FLIGHT_DATA_FILE = Some (Some (JObj m)) ->
  (m !! "activityCards" = None \/
   exists cards, m !! "activityCards" = Some (JArr cards) /\
                 Forall (fun card => process_card card = Ok None) cards) ->
  process_flights inputs t
  = Ok (<[OUTPUT_FLIGHTS := {| columns := []; rows := [] |}]> t, saved 0 OUTPUT_FLIGHTS).
Proof.
  intros Hfile Hcards. unfold process_flights, json_load. rewrite Hfile.
  assert (Hread : read_flights (JObj m) = Ok []).
  { unfold read_flights, py_in, getitem. destruct Hcards as [Hnone|(cards & Hsome & Hall)].
    - rewrite Hnone. rewrite bool_decide_eq_false_2; [reflexivity|].
      intros [? ?]; discriminate.
    - rewrite Hsome. rewrite bool_decide_eq_true_2 by (eexists; reflexivity).
      simpl. rewrite (collect_flights_rejected _ Hall). reflexivity. }
  rewrite Hread. reflexivity.
Qed.

(** ** Batch flights: cards with a summary only *)

Lemma bind_ret_l {A B} (a : A) (f : A -> result B) : Ok a ≫= f = f a.
Proof. reflexivity. Qed.

Lemma summary_card_summary a desc day o d :
  get_default (summary_card a desc day o d) "summary" (JObj ∅)
  = Ok (JObj (list_to_map
                [ ("activityType", JStr a); ("transactionDescription", JStr desc);
                  ("activityDate", JStr day); ("origin", JStr o); ("destination", JStr d) ])).
Proof. unfold summary_card, get_default. rewrite lookup_singleton_eq. reflexivity. Qed.

Lemma summary_card_details a desc day o d :
  get_default (summary_card a desc day o d) "details" (JObj ∅) = Ok (JObj ∅).
Proof.
  unfold summary_card, get_default. rewrite lookup_singleton_ne by discriminate. reflexivity.
Qed.

Lemma get_empty k dflt : get_default (JObj ∅) k dflt = Ok dflt.
Proof. unfold get_default. rewrite lookup_empty. reflexivity. Qed.

Lemma get_empty_None k : get (JObj ∅) k = Ok JNull.
Proof. apply get_empty. Qed.

Lemma upper_or_empty s : upper_method (py_or (py_or JNull (JStr s)) (JStr "")) = Ok (upper s).
Proof. destruct s; reflexivity. Qed.

(** What the loop does with a card that has only a summary. *)
Lemma process_summary_card a desc day o d :
  process_card (summary_card a desc day o d)
  = if accepted a desc day o d
    then date_text ← format_date (JStr day);
         mret (Some (batch_row date_text (upper o) (upper d)))
    else Ok None.
Proof.
  unfold process_card.
  rewrite summary_card_summary, bind_ret_l, summary_card_details, bind_ret_l.
  rewrite get_empty, bind_ret_l, !get_empty_None.
  change (get (JObj ?m) "activityType") with (Ok (JStr a)).
  change (get_default (JObj ?m) "transactionDescription" (JStr "")) with (Ok (JStr desc)).
  change (get (JObj ?m) "activityDate") with (Ok (JStr day)).
  change (get (JObj ?m) "origin") with (Ok (JStr o)).
  change (get (JObj ?m) "destination") with (Ok (JStr d)).
  rewrite !bind_ret_l.
  change (upper_method (JStr desc)) with (Ok (upper desc)).
  rewrite bind_ret_l.
  unfold accepted, is_flight_activity.
  destruct (String.eqb a "Airline" || String.eqb a "Award Issuance"); [|reflexivity].
  destruct (str_contains "REFUND" (upper desc)); [reflexivity|].
  rewrite !andb_true_l.
  repeat (rewrite bind_ret_l || rewrite upper_or_empty).
  change (py_or JNull (JStr day)) with (JStr day).
  change (truthy (JStr ?s)) with (negb (String.eqb s "")).
  replace (String.eqb (upper o) "") with (String.eqb o "")
    by (destruct o; reflexivity).
  replace (String.eqb (upper d) "") with (String.eqb d "")
    by (destruct d; reflexivity).
  destruct (negb (String.eqb day "") && negb (String.eqb o "") && negb (String.eqb d "")
            && negb (String.eqb (upper o) (upper d))); reflexivity.
Qed.

(** For a card with a summary only and a date the parser reads, the
    acceptance test decides alone: the row is appended when it holds, and the
    card is passed over without an error when it does not. *)
Lemma summary_card_accepted_iff a desc day o d ts :
  to_datetime (JStr day) = DtStamp ts ->
  (accepted a desc day o d = true ->
     process_card (summary_card a desc day o d)
     = Ok (Some (batch_row (strftime_ymd ts) (upper o) (upper d)))) /\
  (accepted a desc day o d = false ->
     process_card (summary_card a desc day o d) = Ok None) /\
  ((exists r, process_card (summary_card a desc day o d) = Ok (Some r)) <->
     accepted a desc day o d = true).
Proof.
  intros Hts. rewrite process_summary_card. unfold format_date. rewrite Hts.
  destruct (accepted a desc day o d); simpl.
  - repeat split; try discriminate; eauto.
  - repeat split; try discriminate. intros [r Hr]. discriminate.
Qed.

(** The REFUND test reads the description in any letter case: it succeeds
    exactly when some part of the description is REFUND once in upper
    case. *)
Lemma prefix_app n h :
  String.prefix n h = true <-> exists post, h = (n ++ post)%string.
Proof.
  revert h. induction n as [|c n IH]; intros h.
  - destruct h; cbn [String.prefix String.append]; split; eauto.
  - destruct h as [|c' h]; cbn [String.prefix String.append].
    + split; [discriminate | intros [post H]; discriminate].
    + destruct (Ascii.ascii_dec c c') as [->|Hne].
      * rewrite IH. split; intros [post H]; exists post.
        -- rewrite H. reflexivity.
        -- injection H as ->. reflexivity.
      * split; [discriminate | intros [post H]; injection H as -> _; contradiction].
Qed.

Lemma str_contains_app n h :
  str_contains n h = true <-> exists pre post, h = (pre ++ n ++ post)%string.
Proof.
  induction h as [|c h IH].
  - cbn [str_contains]. rewrite orb_false_r, prefix_app. split.
    + intros [post H]. exists "", post. exact H.
    + intros (pre & post & H). destruct pre as [|c pre]; [exists post; exact H | discriminate].
  - cbn [str_contains]. rewrite orb_true_iff, IH, prefix_app. split.
    + intros [[post H]|(pre & post & H)].
      * exists "", post. exact H.
      * exists (String c pre), post. rewrite H. reflexivity.
    + intros (pre & post & H). destruct pre as [|c' pre].
      * left. exists post. exact H.
      * right. injection H as _ H. exists pre, post. exact H.
Qed.

Lemma upper_app a b : upper (a ++ b) = (upper a ++ upper b)%string.
Proof.
  induction a as [|c a IH]; [reflexivity|].
  change (String (upper_ascii c) (upper (a ++ b))
          = String (upper_ascii c) (upper a ++ upper b)).
  rewrite IH. reflexivity.
Qed.

Lemma upper_split s x y :
  upper s = (x ++ y)%string -> exists a b, s = (a ++ b)%string /\ upper a = x /\ upper b = y.
Proof.
  revert s. induction x as [|c x IH]; intros s H.
  - exists "", s. repeat split. exact H.
  - destruct s as [|c' s]; [discriminate|].
    change (String (upper_ascii c') (upper s) = String c (x ++ y)) in H.
    injection H as Hc H. destruct (IH s H) as (a & b & -> & Ha & Hb).
    exists (String c' a), b. repeat split; [|exact Hb].
    change (String (upper_ascii c') (upper a) = String c x). rewrite Hc, Ha. reflexivity.
Qed.

Lemma refund_in_any_case description :
  str_contains "REFUND" (upper description) = true <->
  exists pre mid post,
    description = (pre ++ mid ++ post)%string /\ upper mid = "REFUND".
Proof.
  rewrite str_contains_app. split.
  - intros (x & y & H). apply upper_split in H as (pre & rest & -> & _ & H).
    apply upper_split in H as (mid & post & -> & Hmid & _).
    exists pre, mid, post. split; [reflexivity | exact Hmid].
  - intros (pre & mid & post & -> & Hmid).
    exists (upper pre), (upper post). rewrite !upper_app, Hmid. reflexivity.
Qed.

(** Every row of the table the flight stage writes has two different
    codes. *)
Lemma batch_rows_distinct inputs (t t' : tables) count file df r :
  process_flights inputs t = Ok (t', saved count file) ->
  t' !! OUTPUT_FLIGHTS = Some df -> r ∈ rows df ->
  exists origin dest,
    r !! "Origin" = Some (CStr origin) /\ r !! "Destination" = Some (CStr dest) /\
    origin <> dest.
Proof.
  intros H Hdf Hr.
  apply process_flights_Ok in H as [(_ & _ & Hrep)|(data & flights & _ & Hread & -> & _)];
    [discriminate|].
  rewrite lookup_insert_eq in Hdf. injection Hdf as <-.
  apply drop_from_elem in Hr as [Hr _].
  unfold read_flights in Hread. apply bind_Ok in Hread as (present & _ & Hread).
  destruct present.
  - apply bind_Ok in Hread as (cards & _ & Hread).
    apply bind_Ok in Hread as (items & _ & Hread).
    destruct (collect_flights_from_cards _ _ Hread r Hr) as (card & _ & Hcard).
    exact (process_card_distinct _ _ Hcard).
  - injection Hread as <-. inversion Hr.
Qed.

(** C2. A card that passes the acceptance test but carries a date the date
    parser refuses is not passed over: formatting its date raises, the loop
    ends there, and the stage ends with an exception, with no table
    written. *)
Theorem batch_aborts_on_unreadable_date cards a desc day o d e (t : tables) :
  accepted a desc day o d = true ->
  format_date (JStr day) = Raise e ->
  summary_card a desc day o d ∈ cards ->
  exists e', process_flights (flight_export cards) t = Raise e'.
Proof.
  intros Hacc Hfmt Hin.
  assert (Hcard : process_card (summary_card a desc day o d) = Raise e).
  { rewrite process_summary_card, Hacc, Hfmt. reflexivity. }
  destruct (collect_flights_Raise _ _ _ Hin Hcard) as [e' He'].
  exists e'. unfold process_flights, flight_export, json_load.
  rewrite lookup_singleton_eq. unfold read_flights, py_in, getitem.
  rewrite lookup_singleton_eq.
  rewrite bool_decide_eq_true_2 by (eexists; reflexivity).
  rewrite bind_ret_l, bind_ret_l. unfold iterate. rewrite bind_ret_l, He'. reflexivity.
Qed.

(** ** Hotel stays: the nights *)

Lemma nights_parsed start end_ ts te :
  to_datetime start = DtStamp ts -> to_datetime end_ = DtStamp te ->
  nights start end_ = CInt ((te - ts) / 86400).
Proof. intros Hs He. unfold nights. rewrite Hs, He. reflexivity. Qed.

(** A date the parser refuses gives one night. *)
Lemma nights_unparsable start end_ :
  (exists e, to_datetime start = DtRaise e) \/ (exists e, to_datetime end_ = DtRaise e) ->
  nights start end_ = CInt 1.
Proof.
  unfold nights. intros [[e He]|[e He]]; rewrite He; [reflexivity|].
  destruct (to_datetime start); reflexivity.
Qed.

(** A missing date, which the parser hands back as [None], gives one night. *)
Lemma nights_missing start end_ :
  to_datetime start = DtNone \/ to_datetime end_ = DtNone ->
  nights start end_ = CInt 1.
Proof.
  unfold nights. intros [H|H]; rewrite H.
  - destruct (to_datetime end_); reflexivity.
  - destruct (to_datetime start); reflexivity.
Qed.

(** With both dates parsed and the end after the start, the nights are the
    whole days between them, at least one from a full day on. *)
Lemma nights_positive start end_ ts te :
  to_datetime start = DtStamp ts -> to_datetime end_ = DtStamp te ->
  ts + 86400 <= te ->
  exists n, nights start end_ = CInt n /\ 1 <= n /\ 86400 * n <= te - ts < 86400 * (n + 1).
Proof.
  intros Hs He Hle. exists ((te - ts) / 86400).
  split; [apply (nights_parsed _ _ _ _ Hs He)|].
  pose proof (Z.div_mod (te - ts) 86400 ltac:(lia)) as Hdiv.
  pose proof (Z.mod_pos_bound (te - ts) 86400 ltac:(lia)) as Hmod.
  split; [|lia].
  apply Z.div_le_lower_bound; lia.
Qed.

Lemma get_default_Some (m : gmap string json) k dflt v :
  m !! k = Some v -> get_default (JObj m) k dflt = Ok v.
Proof. intros H. unfold get_default. rewrite H. reflexivity. Qed.

Lemma get_Some (m : gmap string json) k v :
  m !! k = Some v -> get (JObj m) k = Ok v.
Proof. apply get_default_Some. Qed.

(** What the loop does with a stay edge. *)
Lemma process_stay_edge start end_ description :
  process_edge (stay_edge start end_ description)
  = Ok (Some (let '(lat, lon, addr, city) := geocode_stay description in
              hotel_row (cell_of_json start) (cell_of_json description) city addr
                (nights start end_) lat lon)).
Proof.
  unfold process_edge, stay_edge.
  erewrite get_default_Some by apply lookup_singleton_eq. rewrite bind_ret_l.
  change (get_default (JObj ?m) "type" (JObj ∅)) with (Ok (JObj {[ "code" := JStr "STAY" ]})).
  rewrite bind_ret_l.
  rewrite (get_Some _ "code" (JStr "STAY")) by apply lookup_singleton_eq.
  rewrite bind_ret_l.
  change (get (JObj ?m) "startDate") with (Ok start).
  change (get (JObj ?m) "endDate") with (Ok end_).
  change (get_default (JObj ?m) "properties" (JArr [])) with (Ok (JArr [])).
  rewrite !bind_ret_l.
  change (truthy (JArr [])) with false. cbv iota.
  change (get (JObj ?m) "description") with (Ok description).
  rewrite bind_ret_l.
  destruct (geocode_stay description) as [[[lat lon] addr] city]. reflexivity.
Qed.

Lemma hotel_row_Nights d name city addr n lat lon :
  hotel_row d name city addr n lat lon !! "Nights" = Some n.
Proof. reflexivity. Qed.

(** C3. The importer does not default to 1 when the end date is not after
    the start date: for a stay whose two dates are parsed, the row is
    emitted with the whole days between them, which is 0 for equal dates and
    negative when the end comes first. *)
Theorem nights_not_clamped start end_ description ts te :
  to_datetime start = DtStamp ts -> to_datetime end_ = DtStamp te ->
  te <= ts ->
  exists r n,
    process_edge (stay_edge start end_ description) = Ok (Some r) /\
    r !! "Nights" = Some (CInt n) /\
    n = (te - ts) / 86400 /\ n <= 0 /\ (te < ts -> n < 0).
Proof.
  intros Hs He Hle. rewrite process_stay_edge.
  destruct (geocode_stay description) as [[[lat lon] addr] city].
  eexists _, ((te - ts) / 86400). split; [reflexivity|].
  split; [rewrite hotel_row_Nights, (nights_parsed _ _ _ _ Hs He); reflexivity|].
  split; [reflexivity|]. split.
  - apply Z.div_le_upper_bound; lia.
  - intros Hlt. apply Z.div_lt_upper_bound; lia.
Qed.

(** ** The city of a geocoded place *)

Lemma manual_city_chain (parts : gmap string json) :
  manual_city (JObj parts)
  = Ok (first_present ["city"; "town"; "village"; "county"] parts (JStr "")).
Proof.
  unfold manual_city, get_default. rewrite !bind_ret_l. unfold first_present.
  destruct (parts !! "city"), (parts !! "town"), (parts !! "village"), (parts !! "county");
    reflexivity.
Qed.

Lemma batch_city_chain (parts : gmap string json) :
  batch_city (JObj parts)
  = Ok (first_present ["city"; "town"; "village"] parts (JStr "Unknown")).
Proof.
  unfold batch_city, get_default. rewrite !bind_ret_l. unfold first_present.
  destruct (parts !! "city"), (parts !! "town"), (parts !! "village"); reflexivity.
Qed.

(** Address parts with a town and no city give the town on both paths. *)
Lemma city_from_town (parts : gmap string json) town :
  parts !! "city" = None -> parts !! "town" = Some town ->
  manual_city (JObj parts) = Ok town /\ batch_city (JObj parts) = Ok town.
Proof.
  intros Hc Ht. rewrite manual_city_chain, batch_city_chain. simpl.
  rewrite Hc, Ht. split; reflexivity.
Qed.

(** C4. The chain of the importer stops at the village: for a place whose
    address parts have a county and no city, town or village, the hotel form
    proposes the county and the importer writes "Unknown". *)
Theorem batch_city_skips_county name loc (parts : gmap string json) county :
  geocode name = Ok (Some loc) ->
  raw loc !! "address" = Some (JObj parts) ->
  parts !! "city" = None -> parts !! "town" = None -> parts !! "village" = None ->
  parts !! "county" = Some county ->
  default_city (Some loc) = Ok county /\
  batch_city (JObj parts) = Ok (JStr "Unknown") /\
  geocode_stay name = (latitude loc, longitude loc, CStr (address loc), CStr "Unknown").
Proof.
  intros Hgeo Hraw Hc Ht Hv Hcounty.
  assert (Hbatch : batch_city (JObj parts) = Ok (JStr "Unknown")).
  { rewrite batch_city_chain. simpl. rewrite Hc, Ht, Hv. reflexivity. }
  split; [|split; [exact Hbatch|]].
  - unfold default_city. rewrite (get_default_Some _ _ _ _ Hraw), bind_ret_l.
    rewrite manual_city_chain. simpl. rewrite Hc, Ht, Hv, Hcounty. reflexivity.
  - unfold geocode_stay. rewrite Hgeo.
    rewrite (get_default_Some _ _ _ _ Hraw), bind_ret_l, Hbatch. reflexivity.
Qed.

(** ** Route colours *)

Lemma ltb_antisym x y : String.ltb x y = true -> String.ltb y x = false.
Proof.
  unfold String.ltb. rewrite (String.compare_antisym y x).
  destruct (String.compare x y); simpl; congruence.
Qed.

Lemma ltb_total x y : String.ltb x y = false -> String.ltb y x = false -> x = y.
Proof.
  unfold String.ltb. rewrite (String.compare_antisym y x).
  destruct (String.compare x y) eqn:Hc; simpl; try discriminate.
  intros _ _. apply String.compare_eq_iff. exact Hc.
Qed.

Lemma sorted2_sym x y : sorted2 x y = sorted2 y x.
Proof.
  unfold sorted2. destruct (String.ltb y x) eqn:Hyx, (String.ltb x y) eqn:Hxy; try reflexivity.
  - rewrite (ltb_antisym _ _ Hyx) in Hxy. discriminate.
  - rewrite (ltb_total _ _ Hxy Hyx). reflexivity.
Qed.

Lemma sorted2_cases x y : sorted2 x y = [x; y] \/ sorted2 x y = [y; x].
Proof. unfold sorted2. destruct (String.ltb y x); [right | left]; reflexivity. Qed.

Lemma append_cons c (a b : string) : (String c a ++ b)%string = String c (a ++ b)%string.
Proof. reflexivity. Qed.

Lemma append_nil (b : string) : ("" ++ b)%string = b.
Proof. reflexivity. Qed.

Lemma join_inj a b a' b' :
  hyphen_free a = true -> hyphen_free a' = true ->
  (a ++ String "-" b)%string = (a' ++ String "-" b')%string -> a = a' /\ b = b'.
Proof.
  revert a'. induction a as [|c a IH]; intros [|c' a'] Ha Ha' H;
    rewrite ?append_cons, ?append_nil in H.
  - injection H as ->. split; reflexivity.
  - injection H as <- _. discriminate.
  - injection H as -> _. discriminate.
  - injection H as -> H.
    apply andb_true_iff in Ha as [_ Ha]. apply andb_true_iff in Ha' as [_ Ha'].
    destruct (IH a' Ha Ha' H) as [-> ->]. split; reflexivity.
Qed.

Lemma same_route_spec p q :
  same_route p q = true <->
  (fst p = fst q /\ snd p = snd q) \/ (fst p = snd q /\ snd p = fst q).
Proof.
  unfold same_route. rewrite orb_true_iff, !andb_true_iff, !String.eqb_eq. reflexivity.
Qed.

Lemma route_key_same p q :
  hyphen_free (fst p) = true -> hyphen_free (snd p) = true ->
  hyphen_free (fst q) = true -> hyphen_free (snd q) = true ->
  route_key p = route_key q <-> same_route p q = true.
Proof.
  destruct p as [o d], q as [o' d']. simpl. intros Ho Hd Ho' Hd'.
  rewrite same_route_spec. simpl. unfold route_key. simpl. split.
  - intros H.
    destruct (sorted2_cases o d) as [E|E], (sorted2_cases o' d') as [E'|E'];
      rewrite E, E' in H;
      change (String.concat "-" [?x; ?y]) with (x ++ String "-" y)%string in H;
      apply join_inj in H; try assumption; tauto.
  - intros [[-> ->]|[-> ->]]; [reflexivity|]. rewrite sorted2_sym. reflexivity.
Qed.

Lemma value_counts_lookup ids (id : string) :
  default 0 (value_counts ids !! id) = Z.of_nat (length (filter (fun x => x = id) ids)).
Proof.
  induction ids as [|x ids IH]; [reflexivity|].
  change (value_counts (x :: ids))
    with (<[x := default 0 (value_counts ids !! x) + 1]> (value_counts ids)).
  rewrite filter_cons. destruct (decide (x = id)) as [->|Hne].
  - rewrite lookup_insert_eq. simpl default. rewrite IH. simpl length. lia.
  - rewrite lookup_insert_ne by exact Hne. exact IH.
Qed.

Lemma route_ids_Ok (l : list row) (pairs : list (string * string)) :
  Forall2 (fun r p => r !! "Origin" = Some (CStr (fst p)) /\
                      r !! "Destination" = Some (CStr (snd p))) l pairs ->
  route_ids l = Ok (route_key <$> pairs).
Proof.
  induction 1 as [|r p l pairs [Ho Hd] _ IH]; [reflexivity|].
  cbn [route_ids]. unfold Route_ID. rewrite Ho, Hd, bind_ret_l, IH. reflexivity.
Qed.

Lemma count_same_route (pairs : list (string * string)) p :
  hyphen_free (fst p) = true -> hyphen_free (snd p) = true ->
  Forall (fun q => hyphen_free (fst q) = true /\ hyphen_free (snd q) = true) pairs ->
  Z.of_nat (length (filter (fun x => x = route_key p) (route_key <$> pairs)))
  = route_count pairs p.
Proof.
  intros Ho Hd. unfold route_count. induction 1 as [|q pairs [Hqo Hqd] _ IH]; [reflexivity|].
  rewrite fmap_cons, !filter_cons.
  destruct (decide (route_key q = route_key p)) as [Heq|Hne],
           (decide (same_route p q = true)) as [Hs|Hn]; simpl length.
  - lia.
  - exfalso. apply Hn. apply route_key_same; auto.
  - exfalso. apply Hne. symmetry. apply route_key_same; auto.
  - exact IH.
Qed.

Lemma get_color_tiers n :
  (5 <= n -> get_color n = [255; 0; 0; 200]) /\
  (3 <= n <= 4 -> get_color n = [255; 165; 0; 200]) /\
  (n <= 2 -> get_color n = [0; 128; 255; 150]).
Proof.
  unfold get_color. repeat split; intros H;
    destruct (Z.leb_spec 5 n), (Z.leb_spec 3 n); (reflexivity || lia).
Qed.

(** The identifier does not tell routes apart when a code holds the joining
    character. *)
Example route_key_hyphen_collision : route_key ("A-B", "C") = route_key ("A", "B-C").
Proof. reflexivity. Qed.

(** C9. With flights whose codes hold no hyphen (three-letter codes hold
    none), the colour of each flight of the filtered frame goes by the number
    of flights of that frame between the same two airports, in either
    direction: red ("high") from 5 on, orange ("medium") for 3 or 4, blue
    ("low") for 1 or 2.  The colours are computed from the frame that is
    read; the rows the program writes have no Route_ID, Frequency or Color
    entry. *)
Lemma colors_rows (f_df : DataFrame) :
  rows f_df <> [] ->
  colors f_df = (ids ← route_ids (rows f_df); mret (get_color <$> frequencies ids)).
Proof. unfold colors. destruct (rows f_df); [congruence | reflexivity]. Qed.

Theorem route_frequency_colors (f_df : DataFrame) (pairs : list (string * string)) :
  rows f_df <> [] ->
  Forall2 (fun r p => r !! "Origin" = Some (CStr (fst p)) /\
                      r !! "Destination" = Some (CStr (snd p))) (rows f_df) pairs ->
  Forall (fun p => hyphen_free (fst p) = true /\ hyphen_free (snd p) = true) pairs ->
  (exists cs,
     colors f_df = Ok cs /\ length cs = length pairs /\
     forall i p, pairs !! i = Some p ->
       1 <= route_count pairs p /\
       (5 <= route_count pairs p -> cs !! i = Some [255; 0; 0; 200]) /\
       (3 <= route_count pairs p <= 4 -> cs !! i = Some [255; 165; 0; 200]) /\
       (1 <= route_count pairs p <= 2 -> cs !! i = Some [0; 128; 255; 150])) /\
  (forall d a o ds m p q column,
     column ∈ ["Route_ID"; "Frequency"; "Color"] ->
     flight_row d a o ds m p q !! column = None).
Proof.
  intros Hne Hrows Hfree. split.
  - exists (get_color <$> frequencies (route_key <$> pairs)). split; [|split].
    + rewrite (colors_rows _ Hne), (route_ids_Ok _ _ Hrows), bind_ret_l. reflexivity.
    + unfold frequencies. rewrite !length_fmap. reflexivity.
    + intros i p Hp.
      assert (Hp' : hyphen_free (fst p) = true /\ hyphen_free (snd p) = true).
      { rewrite Forall_forall in Hfree. apply Hfree. eapply list_elem_of_lookup_2. exact Hp. }
      assert (Hi : (get_color <$> frequencies (route_key <$> pairs)) !! i
                   = Some (get_color (route_count pairs p))).
      { unfold frequencies. rewrite !list_lookup_fmap, Hp. simpl.
        rewrite value_counts_lookup, count_same_route; tauto. }
      assert (Hpos : 1 <= route_count pairs p).
      { unfold route_count.
        assert (Hin : p ∈ filter (fun q => same_route p q = true) pairs).
        { apply list_elem_of_filter. split; [|eapply list_elem_of_lookup_2; exact Hp].
          apply same_route_spec. left. split; reflexivity. }
        destruct (filter (fun q => same_route p q = true) pairs); [inversion Hin | simpl length; lia]. }
      rewrite Hi. destruct (get_color_tiers (route_count pairs p)) as (H5 & H3 & H1).
      split; [exact Hpos|]. repeat split; intros H.
      * rewrite H5 by lia. reflexivity.
      * rewrite H3 by lia. reflexivity.
      * rewrite H1 by lia. reflexivity.
  - intros d a o ds m p q column Hc.
    repeat (apply elem_of_cons in Hc as [->|Hc]; [reflexivity|]). inversion Hc.
Qed.

(** ** More on the flight stage *)







Lemma batch_row_Miles date_text origin dest :
  batch_row date_text origin dest !! "Miles" = Some (CInt (calculate_distance origin dest)).
Proof.
  unfold batch_row, locate, calculate_distance.
  destruct (AIRPORT_DB !! origin) as [o|], (AIRPORT_DB !! dest) as [d|]; reflexivity.
Qed.

Lemma batch_row_known date_text origin dest o d :
  AIRPORT_DB !! origin = Some o -> AIRPORT_DB !! dest = Some d ->
  batch_row date_text origin dest
  = flight_row (CStr date_text) (CStr "American Airlines") (CStr origin) (CStr dest)
      (CInt (geodesic_miles o d)) o d.
Proof. intros Ho Hd. unfold batch_row, locate. rewrite Ho, Hd. reflexivity. Qed.

(** The miles of an imported flight are the miles the application computes
    for the same two codes, and its positions are those of the airport table
    when both codes are known. *)
Theorem batch_miles_agree_with_app card r origin dest :
  process_card card = Ok (Some r) ->
  r !! "Origin" = Some (CStr origin) -> r !! "Destination" = Some (CStr dest) ->
  r !! "Miles" = Some (CInt (calculate_distance origin dest)) /\
  (forall o d, AIRPORT_DB !! origin = Some o -> AIRPORT_DB !! dest = Some d ->
     r !! "Miles" = Some (CInt (geodesic_miles o d)) /\
     r !! "Origin_Lat" = Some (CFloat (fst o)) /\ r !! "Origin_Lon" = Some (CFloat (snd o)) /\
     r !! "Dest_Lat" = Some (CFloat (fst d)) /\ r !! "Dest_Lon" = Some (CFloat (snd d))).
Proof.
  intros H Ho Hd. apply process_card_Some in H
    as (? & ? & ? & ? & ? & ? & ? & ? & origin' & dest' & date_text & H).
  destruct H as (_ & _ & _ & _ & _ & _ & _ & _ & _ & _ & _ & _ & _ & _ & ->).
  pose proof (batch_row_lookups date_text origin' dest') as (_ & _ & Ho' & Hd').
  rewrite Ho' in Ho. rewrite Hd' in Hd. injection Ho as ->. injection Hd as ->.
  split; [apply batch_row_Miles|].
  intros o d Hko Hkd. rewrite (batch_row_known _ _ _ o d Hko Hkd).
  repeat split; reflexivity.
Qed.

Lemma process_flights_writes inputs (t : tables) data flights :
  json_load inputs FLIGHT_DATA_FILE = Ok data -> read_flights data = Ok flights ->
  process_flights inputs t
  = Ok (<[OUTPUT_FLIGHTS := drop_duplicates (DataFrame_records FLIGHT_COLUMNS flights)]> t,
        saved (len (drop_duplicates (DataFrame_records FLIGHT_COLUMNS flights))) OUTPUT_FLIGHTS).
Proof. intros Hload Hread. unfold process_flights. rewrite Hload, Hread. reflexivity. Qed.

(** The flight stage writes the file the application keeps its flights in,
    and what it writes comes from the export alone: the table that was there
    (rows added through the form, say) is discarded, every other file is left
    alone, and running the stage a second time changes nothing. *)
Theorem flight_import_replaces inputs (t t1 : tables) count file :
  process_flights inputs t = Ok (t1, saved count file) ->
  exists df,
    t1 !! FLIGHTS_FILE = Some df /\
    (forall other, other <> FLIGHTS_FILE -> t1 !! other = t !! other) /\
    (forall t0 : tables,
       process_flights inputs t0 = Ok (<[FLIGHTS_FILE := df]> t0, saved count file)) /\
    process_flights inputs t1 = Ok (t1, saved count file).
Proof.
  intros H.
  apply process_flights_Ok in H as [(_ & _ & Hrep)|(data & flights & Hload & Hread & -> & Hrep)];
    [discriminate|].
  injection Hrep as -> ->.
  exists (drop_duplicates (DataFrame_records FLIGHT_COLUMNS flights)).
  split; [apply lookup_insert_eq|]. split; [|split].
  - intros other Hne. apply lookup_insert_ne. intros Heq. apply Hne. symmetry. exact Heq.
  - intros t0. apply (process_flights_writes _ _ _ _ Hload Hread).
  - rewrite (process_flights_writes _ _ _ _ Hload Hread).
    change OUTPUT_FLIGHTS with FLIGHTS_FILE. rewrite insert_insert_eq. reflexivity.
Qed.

Lemma drop_from_fresh seen (l : list row) :
  NoDup l -> (forall r, r ∈ l -> r ∉ seen) -> drop_from seen l = l.
Proof.
  intros Hnd. revert seen. induction Hnd as [|x l Hx _ IH]; intros seen Hfresh; [reflexivity|].
  cbn [drop_from]. rewrite bool_decide_eq_false_2 by (apply Hfresh; left).
  f_equal. apply IH. intros r Hr Hin.
  apply elem_of_cons in Hin as [->|Hin]; [contradiction|].
  exact (Hfresh r (list_elem_of_further _ _ _ Hr) Hin).
Qed.

(** Dropping duplicates leaves a table without equal rows as it is, so
    dropping them twice is dropping them once; no column is touched and no
    row is added. *)
Theorem drop_duplicates_idempotent (df : DataFrame) :
  (NoDup (rows df) -> drop_duplicates df = df) /\
  drop_duplicates (drop_duplicates df) = drop_duplicates df /\
  columns (drop_duplicates df) = columns df /\
  (length (rows (drop_duplicates df)) <= length (rows df))%nat.
Proof.
  assert (Hfix : forall l : list row, NoDup l -> drop_from [] l = l).
  { intros l Hl. apply drop_from_fresh; [exact Hl|]. intros r _ Hin. inversion Hin. }
  split; [|split; [|split]].
  - intros Hnd. destruct df as [cols rs]. unfold drop_duplicates. simpl in *.
    rewrite (Hfix rs Hnd). reflexivity.
  - unfold drop_duplicates. simpl. rewrite (Hfix _ (drop_from_NoDup [] (rows df))). reflexivity.
  - reflexivity.
  - apply sublist_length, drop_from_sublist.
Qed.

Lemma collect_flights_length cards flights :
  collect_flights cards = Ok flights -> (length flights <= length cards)%nat.
Proof.
  revert flights. induction cards as [|card cards IH]; simpl; intros flights H.
  - injection H as <-. reflexivity.
  - apply bind_Ok in H as (o & _ & H). apply bind_Ok in H as (rs & Hrs & H).
    injection H as <-. rewrite length_app. specialize (IH rs Hrs).
    destruct o; simpl; lia.
Qed.

(** The number of flights the stage reports is at most the number of cards
    of the export, and it is the number of rows of the written table. *)
Theorem flight_count_bounded cards (t t' : tables) count file :
  process_flights (flight_export cards) t = Ok (t', saved count file) ->
  0 <= count <= Z.of_nat (length cards) /\
  exists df, t' !! OUTPUT_FLIGHTS = Some df /\ count = Z.of_nat (length (rows df)).
Proof.
  intros H.
  apply process_flights_Ok in H as [(_ & _ & Hrep)|(data & flights & Hload & Hread & -> & Hrep)];
    [discriminate|].
  injection Hrep as -> ->.
  unfold json_load, flight_export in Hload. rewrite lookup_singleton_eq in Hload.
  injection Hload as <-.
  unfold read_flights, py_in, getitem in Hread. rewrite lookup_singleton_eq in Hread.
  rewrite bool_decide_eq_true_2 in Hread by (eexists; reflexivity).
  rewrite !bind_ret_l in Hread. unfold iterate in Hread. rewrite bind_ret_l in Hread.
  pose proof (collect_flights_length _ _ Hread) as Hlen.
  pose proof (sublist_length _ _ (drop_from_sublist [] flights)) as Hsub.
  split.
  - unfold len, drop_duplicates. simpl rows. lia.
  - eexists. split; [apply lookup_insert_eq | reflexivity].
Qed.

Lemma py_or_strings x y : py_or (JStr x) (JStr y) = JStr (or_else x y).
Proof. unfold py_or, or_else. simpl truthy. destruct (String.eqb x ""); reflexivity. Qed.

Lemma upper_or_else x y :
  upper_method (py_or (py_or (JStr x) (JStr y)) (JStr "")) = Ok (upper (or_else x y)).
Proof.
  rewrite py_or_strings, py_or_strings. unfold upper_method, or_else.
  destruct (String.eqb_spec (if String.eqb x "" then y else x) "") as [->|_]; reflexivity.
Qed.

(** The flight details win over the summary, field by field: a card with
    details is treated as the card with a summary only whose date, origin and
    destination are those of the details where they are not empty and those
    of the summary elsewhere. *)
Theorem details_before_summary a desc day o d travel_date flight_origin flight_dest :
  process_card (detailed_card a desc day o d travel_date flight_origin flight_dest)
  = process_card (summary_card a desc (or_else travel_date day)
                    (or_else flight_origin o) (or_else flight_dest d)).
Proof.
  rewrite process_summary_card. unfold process_card, detailed_card.
  erewrite (get_default_Some _ "summary")
    by (rewrite lookup_insert_ne by discriminate; apply lookup_singleton_eq).
  rewrite bind_ret_l.
  erewrite (get_default_Some _ "details") by apply lookup_insert_eq.
  rewrite bind_ret_l.
  erewrite (get_default_Some _ "flightInfo") by apply lookup_singleton_eq.
  rewrite bind_ret_l.
  change (get (JObj ?m) "activityType") with (Ok (JStr a)).
  change (get_default (JObj ?m) "transactionDescription" (JStr "")) with (Ok (JStr desc)).
  change (get (JObj ?m) "travelDate") with (Ok (JStr travel_date)).
  change (get (JObj ?m) "activityDate") with (Ok (JStr day)).
  rewrite !bind_ret_l.
  change (upper_method (JStr desc)) with (Ok (upper desc)).
  rewrite bind_ret_l.
  unfold accepted, is_flight_activity.
  destruct (String.eqb a "Airline" || String.eqb a "Award Issuance"); [|reflexivity].
  destruct (str_contains "REFUND" (upper desc)); [reflexivity|].
  rewrite !andb_true_l. change (negb false) with true. cbv iota.
  change (get (JObj (list_to_map [("travelDate", ?x); ("origin", ?y); ("destination", ?z)])) "origin")
    with (Ok y).
  rewrite bind_ret_l.
  change (get (JObj ?m) "origin") with (Ok (JStr o)).
  rewrite bind_ret_l, upper_or_else, bind_ret_l.
  change (get (JObj (list_to_map [("travelDate", ?x); ("origin", ?y); ("destination", ?z)])) "destination")
    with (Ok z).
  rewrite bind_ret_l.
  change (get (JObj ?m) "destination") with (Ok (JStr d)).
  rewrite bind_ret_l, upper_or_else, bind_ret_l.
  rewrite py_or_strings.
  change (truthy (JStr ?s)) with (negb (String.eqb s "")).
  replace (String.eqb (upper (or_else flight_origin o)) "")
    with (String.eqb (or_else flight_origin o) "")
    by (destruct (or_else flight_origin o); reflexivity).
  replace (String.eqb (upper (or_else flight_dest d)) "")
    with (String.eqb (or_else flight_dest d) "")
    by (destruct (or_else flight_dest d); reflexivity).
  destruct (negb (String.eqb (or_else travel_date day) "")
            && negb (String.eqb (or_else flight_origin o) "")
            && negb (String.eqb (or_else flight_dest d) "")
            && negb (String.eqb (upper (or_else flight_origin o))
                       (upper (or_else flight_dest d)))); reflexivity.
Qed.

(** ** More on the hotel stage *)

Lemma stay_code_match {A} (code : string) (x y : A) :
  match JStr code with
  | JStr "STAY" => x
  | _ => y
  end = if String.eqb code "STAY" then x else y.
Proof.
  destruct (String.eqb_spec code "STAY") as [->|Hne]; [reflexivity|].
  destruct code as [|[[] [] [] [] [] [] [] []] code]; try reflexivity.
  destruct code as [|[[] [] [] [] [] [] [] []] code]; try reflexivity.
  destruct code as [|[[] [] [] [] [] [] [] []] code]; try reflexivity.
  destruct code as [|[[] [] [] [] [] [] [] []] code]; try reflexivity.
  destruct code; [contradiction | reflexivity].
Qed.

(** What the loop does with an edge of a known shape. *)
Lemma process_activity_edge code start end_ description props :
  process_edge (activity_edge code start end_ description props)
  = if String.eqb code "STAY"
    then name ← stay_name props description; mret (Some (stay_row start end_ name))
    else Ok None.
Proof.
  unfold process_edge, activity_edge.
  erewrite get_default_Some by apply lookup_singleton_eq. rewrite bind_ret_l.
  change (get_default (JObj ?m) "type" (JObj ∅)) with (Ok (JObj {[ "code" := JStr code ]})).
  rewrite bind_ret_l.
  rewrite (get_Some _ "code" (JStr code)) by apply lookup_singleton_eq.
  rewrite bind_ret_l, stay_code_match.
  destruct (String.eqb code "STAY"); [|reflexivity].
  change (get (JObj ?m) "startDate") with (Ok start).
  change (get (JObj ?m) "endDate") with (Ok end_).
  change (get_default (JObj ?m) "properties" (JArr [])) with (Ok props).
  change (get (JObj ?m) "description") with (Ok description).
  rewrite !bind_ret_l. unfold stay_name, stay_row.
  destruct (truthy props).
  - destruct (first_item props) as [first|e]; [|reflexivity]. rewrite !bind_ret_l.
    destruct (get_default first "basicInformation" (JObj ∅)) as [basic|e]; [|reflexivity].
    rewrite !bind_ret_l. destruct (get basic "name") as [name|e]; [|reflexivity].
    rewrite !bind_ret_l. destruct (geocode_stay name) as [[[lat lon] addr] city]. reflexivity.
  - rewrite !bind_ret_l. destruct (geocode_stay description) as [[[lat lon] addr] city].
    reflexivity.
Qed.

Lemma geocode_stay_missed name :
  geocode name = Ok None \/ (exists e, geocode name = Raise e) ->
  geocode_stay name = (0%Q, 0%Q, cell_of_json name, CStr "Unknown").
Proof. unfold geocode_stay. intros [H|[e H]]; rewrite H; reflexivity. Qed.

(** A stay whose name the geocoder does not find, or on which the geocoder
    raises, is still written: with 0.0 for both coordinates, the name as its
    address and "Unknown" as its city. *)
Theorem geocoder_failure_keeps_stay start end_ description :
  geocode description = Ok None \/ (exists e, geocode description = Raise e) ->
  process_edge (stay_edge start end_ description)
  = Ok (Some (hotel_row (cell_of_json start) (cell_of_json description) (CStr "Unknown")
                (cell_of_json description) (nights start end_) 0 0)).
Proof.
  intros H. rewrite process_stay_edge, (geocode_stay_missed _ H). reflexivity.
Qed.

(** The city the importer takes from a geocoder answer. *)
Lemma geocode_stay_found name loc :
  geocode name = Ok (Some loc) ->
  geocode_stay name
  = (latitude loc, longitude loc, CStr (address loc),
     match raw loc !! "address" with
     | Some (JObj parts) =>
         cell_of_json (first_present ["city"; "town"; "village"] parts (JStr "Unknown"))
     | _ => CStr "Unknown"
     end).
Proof.
  intros H. unfold geocode_stay. rewrite H. unfold get_default at 1.
  destruct (raw loc !! "address") as [parts|]; simpl default.
  - rewrite bind_ret_l. destruct parts; reflexivity.
  - rewrite bind_ret_l. reflexivity.
Qed.

(** A stay the geocoder finds is written with the coordinates and the
    address of the answer.  Its city is the first of city, town and village
    among the address parts; it is "Unknown" when the answer has no address
    parts or parts that are not a dictionary, and the coordinates and the
    address are kept all the same. *)
Theorem geocoder_answer_fills_stay start end_ description loc :
  geocode description = Ok (Some loc) ->
  exists city,
    process_edge (stay_edge start end_ description)
    = Ok (Some (hotel_row (cell_of_json start) (cell_of_json description) city
                  (CStr (address loc)) (nights start end_) (latitude loc) (longitude loc))) /\
    (forall parts, raw loc !! "address" = Some (JObj parts) ->
       city = cell_of_json (first_present ["city"; "town"; "village"] parts (JStr "Unknown"))) /\
    (raw loc !! "address" = None -> city = CStr "Unknown") /\
    (forall v, raw loc !! "address" = Some v -> (forall parts, v <> JObj parts) ->
       city = CStr "Unknown").
Proof.
  intros H. rewrite process_stay_edge, (geocode_stay_found _ _ H).
  eexists. split; [reflexivity|]. split; [|split].
  - intros parts ->. reflexivity.
  - intros ->. reflexivity.
  - intros v -> Hv. destruct v; try reflexivity. exfalso. exact (Hv _ eq_refl).
Qed.

Lemma stay_name_named name rest description :
  stay_name (JArr (named_property name :: rest)) description = Ok name.
Proof.
  unfold stay_name, named_property. simpl truthy. cbv iota. simpl first_item.
  rewrite bind_ret_l.
  erewrite get_default_Some by apply lookup_singleton_eq. rewrite bind_ret_l.
  apply get_Some, lookup_singleton_eq.
Qed.

(** The name of a stay is the display name of the first entry of its property
    list, whatever the other entries and the description say; a first entry
    without basic information gives the name [None], not the description;
    the description is used only when the list is empty; a first entry that
    is not a dictionary ends the stage with an exception. *)
Theorem stay_name_from_first_property start end_ description :
  (forall name rest,
     process_edge (activity_edge "STAY" start end_ description
                     (JArr (named_property name :: rest)))
     = Ok (Some (stay_row start end_ name))) /\
  (forall rest,
     process_edge (activity_edge "STAY" start end_ description (JArr (JObj ∅ :: rest)))
     = Ok (Some (stay_row start end_ JNull))) /\
  process_edge (activity_edge "STAY" start end_ description (JArr []))
  = Ok (Some (stay_row start end_ description)) /\
  (forall text rest,
     process_edge (activity_edge "STAY" start end_ description (JArr (JStr text :: rest)))
     = Raise AttributeError).
Proof.
  split; [|split; [|split]].
  - intros name rest. rewrite process_activity_edge, stay_name_named. reflexivity.
  - intros rest. rewrite process_activity_edge. unfold stay_name.
    simpl truthy. cbv iota. simpl first_item.
    rewrite bind_ret_l, get_empty, bind_ret_l, get_empty_None. reflexivity.
  - rewrite process_activity_edge. reflexivity.
  - intros text rest. rewrite process_activity_edge. reflexivity.
Qed.

Lemma getitem_singleton k v : getitem (JObj {[ k := v ]}) k = Ok v.
Proof. unfold getitem. rewrite lookup_singleton_eq. reflexivity. Qed.

Lemma collect_hotels_edges (stays : list (string * json * json * json)) :
  collect_hotels
    ((fun s => activity_edge (fst (fst (fst s))) (snd (fst (fst s))) (snd (fst s)) (snd s)
                 (JArr [])) <$> stays)
  = Ok ((fun s => stay_row (snd (fst (fst s))) (snd (fst s)) (snd s))
        <$> filter (fun s => fst (fst (fst s)) = "STAY") stays).
Proof.
  induction stays as [|[[[code start] end_] description] stays IH]; [reflexivity|].
  rewrite fmap_cons. cbn [collect_hotels fst snd].
  rewrite process_activity_edge, IH, filter_cons. cbn [fst snd].
  destruct (String.eqb_spec code "STAY") as [->|Hne].
  - rewrite decide_True by reflexivity. reflexivity.
  - rewrite decide_False by exact Hne. reflexivity.
Qed.

(** The hotel stage writes one row for every edge of type STAY, in the order
    of the export, and passes over the other edges; it drops no duplicate,
    and the count it reports is the number of STAY edges, whatever the dates
    are and whatever the geocoder answers. *)
Theorem hotel_rows_one_per_stay (stays : list (string * json * json * json)) (t : tables) :
  process_hotels
    (hotel_export
       ((fun s => activity_edge (fst (fst (fst s))) (snd (fst (fst s))) (snd (fst s)) (snd s)
                    (JArr [])) <$> stays)) t
  = Ok (<[OUTPUT_HOTELS :=
            DataFrame_records HOTEL_COLUMNS
              ((fun s => stay_row (snd (fst (fst s))) (snd (fst s)) (snd s))
               <$> filter (fun s => fst (fst (fst s)) = "STAY") stays)]> t,
        saved (Z.of_nat (length (filter (fun s => fst (fst (fst s)) = "STAY") stays)))
          OUTPUT_HOTELS).
Proof.
  unfold process_hotels, hotel_export, json_load. rewrite lookup_singleton_eq.
  unfold read_hotels, py_in. rewrite bool_decide_eq_true_2
    by (rewrite lookup_singleton_eq; eexists; reflexivity).
  rewrite bind_ret_l.
  repeat (rewrite getitem_singleton, bind_ret_l).
  unfold iterate. rewrite bind_ret_l, collect_hotels_edges, bind_ret_l.
  unfold len, DataFrame_records. cbn [rows]. rewrite length_fmap. reflexivity.
Qed.

(** An export without the key 'data' makes the hotel stage write the table
    with no column and no row over the output file and report 0 stays; an
    export whose 'data' lacks the key 'customer' ends the stage with
    [KeyError], and an export that is not JSON with [JSONDecodeError]; only a
    missing file is reported and passed over. *)
Theorem hotel_export_shapes inputs (t : tables) :
  (inputs !! MARRIOTT_DATA_FILE = None ->
     process_hotels inputs t = Ok (t, not_found MARRIOTT_DATA_FILE)) /\
  (inputs !! MARRIOTT_DATA_FILE = Some None ->
     process_hotels inputs t = Raise JSONDecodeError) /\
  (forall m : gmap string json,
     inputs !! MARRIOTT_DATA_FILE = Some (Some (JObj m)) -> m !! "data" = None ->
     process_hotels inputs t
     = Ok (<[OUTPUT_HOTELS := {| columns := []; rows := [] |}]> t, saved 0 OUTPUT_HOTELS)) /\
  (forall m d : gmap string json,
     inputs !! MARRIOTT_DATA_FILE = Some (Some (JObj m)) ->
     m !! "data" = Some (JObj d) -> d !! "customer" = None ->
     process_hotels inputs t = Raise KeyError).
Proof.
  unfold process_hotels, json_load. split; [|split; [|split]].
  - intros ->. reflexivity.
  - intros ->. reflexivity.
  - intros m -> Hm. unfold read_hotels, py_in. rewrite Hm.
    rewrite bool_decide_eq_false_2 by (intros [? ?]; discriminate). reflexivity.
  - intros m d -> Hm Hd. unfold read_hotels, py_in. rewrite Hm.
    rewrite bool_decide_eq_true_2 by (eexists; reflexivity).
    rewrite bind_ret_l. unfold getitem. rewrite Hm, bind_ret_l, Hd. reflexivity.
Qed.

(** ** The hotel tab *)

Lemma hotel_row_lookups d name city addr n lat lon :
  let r := hotel_row d name city addr n lat lon in
  r !! "Date" = Some d /\ r !! "Name" = Some name /\ r !! "City" = Some city /\
  r !! "Address" = Some addr /\ r !! "Nights" = Some n /\
  r !! "Lat" = Some (CFloat lat) /\ r !! "Lon" = Some (CFloat lon).
Proof. repeat split; reflexivity. Qed.

Lemma log_hotel_Ok form found (t : tables) df_curr :
  load_data t HOTELS_FILE HOTEL_COLUMNS = Ok df_curr ->
  log_hotel form found t
  = Ok (<[HOTELS_FILE :=
            concat df_curr
              (DataFrame_records HOTEL_COLUMNS
                 [hotel_row (CDate (h_date form)) (CStr (h_name form)) (CStr (h_city form))
                    (CStr (h_addr form)) (CInt (h_nights form))
                    (match found with Some loc => latitude loc | None => 0%Q end)
                    (match found with Some loc => longitude loc | None => 0%Q end)])]> t,
        success "Hotel Saved!").
Proof.
  intros Hload. unfold log_hotel, append_row. simpl columns. rewrite Hload. reflexivity.
Qed.

(** Logging a hotel puts one row after the rows of the hotel table: the
    text fields and the nights are those of the form, the coordinates are
    those of the location found by the last search, whatever name was typed
    afterwards, and 0.0 when there is none.  The flight table is not
    touched. *)
Theorem log_hotel_spec form found (t : tables) df_curr :
  load_data t HOTELS_FILE HOTEL_COLUMNS = Ok df_curr ->
  exists t' df new_hotel,
    log_hotel form found t = Ok (t', success "Hotel Saved!") /\
    t' !! HOTELS_FILE = Some df /\
    rows df = (rows df_curr ++ [new_hotel])%list /\
    t' !! FLIGHTS_FILE = t !! FLIGHTS_FILE /\
    new_hotel !! "Name" = Some (CStr (h_name form)) /\
    new_hotel !! "City" = Some (CStr (h_city form)) /\
    new_hotel !! "Address" = Some (CStr (h_addr form)) /\
    new_hotel !! "Nights" = Some (CInt (h_nights form)) /\
    (found = None ->
       new_hotel !! "Lat" = Some (CFloat 0) /\ new_hotel !! "Lon" = Some (CFloat 0)) /\
    (forall loc, found = Some loc ->
       new_hotel !! "Lat" = Some (CFloat (latitude loc)) /\
       new_hotel !! "Lon" = Some (CFloat (longitude loc))).
Proof.
  intros Hload. eexists _, _, _. split; [apply (log_hotel_Ok form found t df_curr Hload)|].
  split; [apply lookup_insert_eq|]. split; [reflexivity|].
  split; [apply lookup_insert_ne; discriminate|].
  repeat split; try reflexivity.
  - subst found. reflexivity.
  - subst found. reflexivity.
  - subst found. reflexivity.
  - subst found. reflexivity.
Qed.

Lemma search_location_kept query found :
  query = "" \/ geocode (JStr query) = Ok None \/ (exists e, geocode (JStr query) = Raise e) ->
  fst (search_location query found) = found.
Proof.
  unfold search_location. intros [->|[H|[e H]]]; [reflexivity| |];
    destruct (truthy (JStr query)); try reflexivity; rewrite H; reflexivity.
Qed.

(** A search that finds nothing, that raises, or that has an empty query
    leaves the location of the earlier search in the session: the hotel
    logged next gets the coordinates of that earlier location.  A search
    that finds a place replaces it. *)
Theorem failed_search_keeps_old_location query old form (t : tables) df_curr :
  query = "" \/ geocode (JStr query) = Ok None \/ (exists e, geocode (JStr query) = Raise e) ->
  load_data t HOTELS_FILE HOTEL_COLUMNS = Ok df_curr ->
  fst (search_location query (Some old)) = Some old /\
  (forall loc other, geocode (JStr other) = Ok (Some loc) -> other <> "" ->
     fst (search_location other (Some old)) = Some loc) /\
  exists t' df new_hotel,
    log_hotel form (fst (search_location query (Some old))) t = Ok (t', success "Hotel Saved!") /\
    t' !! HOTELS_FILE = Some df /\
    rows df = (rows df_curr ++ [new_hotel])%list /\
    new_hotel !! "Name" = Some (CStr (h_name form)) /\
    new_hotel !! "Lat" = Some (CFloat (latitude old)) /\
    new_hotel !! "Lon" = Some (CFloat (longitude old)).
Proof.
  intros Hfail Hload. rewrite (search_location_kept _ _ Hfail).
  split; [reflexivity|]. split.
  - intros loc other Hfound Hne. unfold search_location.
    apply truthy_JStr in Hne. rewrite Hne, Hfound. reflexivity.
  - eexists _, _, _. split; [apply (log_hotel_Ok form (Some old) t df_curr Hload)|].
    split; [apply lookup_insert_eq|]. split; [reflexivity|].
    repeat split; reflexivity.
Qed.

Lemma get_default_None (m : gmap string json) k dflt :
  m !! k = None -> get_default (JObj m) k dflt = Ok dflt.
Proof. intros H. unfold get_default. rewrite H. reflexivity. Qed.

Lemma first_segment_prefix s :
  s = first_segment s \/ exists rest, s = (first_segment s ++ String "," rest)%string.
Proof.
  induction s as [|c s IH]; [left; reflexivity|].
  cbn [first_segment]. destruct (Ascii.eqb_spec c ",") as [->|Hne].
  - right. exists s. reflexivity.
  - destruct IH as [IH|[rest IH]].
    + left. rewrite <- IH. reflexivity.
    + right. exists rest. rewrite append_cons, <- IH. reflexivity.
Qed.

Lemma first_segment_no_comma s : str_contains "," (first_segment s) = false.
Proof.
  induction s as [|c s IH]; [reflexivity|].
  cbn [first_segment]. destruct (Ascii.eqb_spec c ",") as [->|Hne]; [reflexivity|].
  cbn [str_contains String.prefix]. rewrite IH, orb_false_r.
  destruct (Ascii.ascii_dec "," c) as [<-|_]; [contradiction | reflexivity].
Qed.

(** The name proposed by the hotel form is the 'hotel' address part, else
    the 'tourism' part, else the text of the address before its first comma;
    the city is the first of city, town, village and county, else the empty
    text.  Both are empty before any search, and address parts that are not
    a dictionary make the page raise. *)
Theorem form_defaults_chain loc :
  default_name None = Ok (JStr "") /\ default_city None = Ok (JStr "") /\
  default_addr None = "" /\ default_addr (Some loc) = address loc /\
  str_contains "," (first_segment (address loc)) = false /\
  (address loc = first_segment (address loc) \/
   exists rest, address loc = (first_segment (address loc) ++ String "," rest)%string) /\
  (forall parts, raw loc !! "address" = Some (JObj parts) ->
     default_name (Some loc)
     = Ok (first_present ["hotel"; "tourism"] parts (JStr (first_segment (address loc)))) /\
     default_city (Some loc)
     = Ok (first_present ["city"; "town"; "village"; "county"] parts (JStr ""))) /\
  (raw loc !! "address" = None ->
     default_name (Some loc) = Ok (JStr (first_segment (address loc))) /\
     default_city (Some loc) = Ok (JStr "")) /\
  (forall v, raw loc !! "address" = Some v -> (forall parts, v <> JObj parts) ->
     default_name (Some loc) = Raise AttributeError /\
     default_city (Some loc) = Raise AttributeError).
Proof.
  split; [reflexivity|]. split; [reflexivity|]. split; [reflexivity|]. split; [reflexivity|].
  split; [apply first_segment_no_comma|]. split; [apply first_segment_prefix|].
  split; [|split].
  - intros parts Hparts. unfold default_name, default_city.
    rewrite (get_default_Some _ _ _ _ Hparts), !bind_ret_l. split.
    + unfold get_default. rewrite bind_ret_l. unfold first_present.
      destruct (parts !! "hotel"), (parts !! "tourism"); reflexivity.
    + apply manual_city_chain.
  - intros Hnone. unfold default_name, default_city.
    rewrite (get_default_None _ _ _ Hnone), !bind_ret_l. split; reflexivity.
  - intros v Hv Hnot. unfold default_name, default_city.
    rewrite (get_default_Some _ _ _ _ Hv), !bind_ret_l.
    destruct v; try (split; reflexivity). exfalso. exact (Hnot _ eq_refl).
Qed.

(** ** The editable grids *)

(** Saving a grid replaces the table of its file by the edited one, other
    files being left alone.  What is loaded next is the edited table as its
    CSV text reads: the same columns and as many rows, in their order, so
    rows deleted in the grid are gone; a cell that was blanked or holds no
    value is read as NaN, and in a column whose cells are of one kind every
    cell is the written one read back.  After saving a grid without rows
    the grid is no longer drawn, as for a missing file; a table saved
    without columns cannot be loaded any more. *)
Theorem grid_save_replaces (edited_df : DataFrame) (file : string) (t : tables) :
  (t !! file = None -> grid_offered file t = Ok false) /\
  (forall other, other <> file -> save_changes edited_df file t !! other = t !! other) /\
  (columns edited_df <> [] ->
     (forall cols,
        load_data (save_changes edited_df file t) file cols = Ok (parse_frame edited_df)) /\
     columns (parse_frame edited_df) = columns edited_df /\
     length (rows (parse_frame edited_df)) = length (rows edited_df) /\
     (NoDup (columns edited_df) ->
      forall i (r_i : row) c, rows edited_df !! i = Some r_i -> c ∈ columns edited_df ->
        exists r_i' : row,
          rows (parse_frame edited_df) !! i = Some r_i' /\
          (r_i !! c = None \/ r_i !! c = Some CNone \/ r_i !! c = Some CNaN \/
           r_i !! c = Some (CStr "") -> r_i' !! c = Some CNaN) /\
          (same_kind (column_fields edited_df c) = true ->
           r_i' !! c = Some (read_back (default CNaN (r_i !! c))))) /\
     grid_offered file (save_changes edited_df file t)
     = Ok (match rows edited_df with [] => false | _ => true end)) /\
  (columns edited_df = [] ->
     forall cols, load_data (save_changes edited_df file t) file cols = Raise EmptyDataError).
Proof.
  split; [|split; [|split]].
  - intros Habs. unfold grid_offered. rewrite (load_data_absent _ _ _ Habs). reflexivity.
  - intros other Hne. unfold save_changes, save_data, to_csv.
    apply lookup_insert_ne. congruence.
  - intros Hcols.
    assert (Hload : forall cols,
               load_data (save_changes edited_df file t) file cols = Ok (parse_frame edited_df)).
    { intros cols. apply load_data_present; [apply lookup_insert_eq | exact Hcols]. }
    split; [exact Hload|]. split; [reflexivity|]. split; [apply parse_frame_length|]. split.
    + intros Hnd i r_i c Hi Hc.
      destruct (parse_frame_row edited_df i r_i Hnd Hi) as (r_i' & Hr & Hin & _).
      exists r_i'. split; [exact Hr|]. rewrite (Hin c Hc). split.
      * intros Hblank.
        rewrite (parse_column_blank _ i _ (column_fields_lookup edited_df c i r_i Hi));
          [reflexivity|].
        destruct Hblank as [Hb | [Hb | [Hb | Hb]]]; rewrite Hb; reflexivity.
      * intros Hkind. rewrite (parse_column_same_kind _ Hkind), list_lookup_fmap.
        rewrite (column_fields_lookup edited_df c i r_i Hi). reflexivity.
    + unfold grid_offered. rewrite Hload, bind_ret_l.
      pose proof (parse_frame_length edited_df) as Hlen.
      unfold df_empty. change (columns (parse_frame edited_df)) with (columns edited_df).
      destruct (columns edited_df); [congruence|].
      destruct (rows (parse_frame edited_df)), (rows edited_df); try discriminate; reflexivity.
  - intros Hcols cols. unfold load_data, read_csv, save_changes, save_data, to_csv.
    rewrite lookup_insert_eq, Hcols. reflexivity.
Qed.

(** ** More on the flight form and the route colours *)

(** The form reads the two codes without regard to letter case: two forms
    that differ only in the case of the codes do the same. *)
Theorem flight_form_ignores_case (form form' : flight_form) (t : tables) :
  date_input form = date_input form' -> airline_input form = airline_input form' ->
  miles_input form = miles_input form' ->
  upper (origin_input form) = upper (origin_input form') ->
  upper (dest_input form) = upper (dest_input form') ->
  save_flight form t = save_flight form' t.
Proof.
  intros Hd Ha Hm Ho Hds. unfold save_flight, form_row.
  rewrite Hd, Ha, Hm, Ho, Hds. reflexivity.
Qed.

Lemma route_ids_direction (l l' : list row) :
  Forall2 (fun r r' =>
             exists o d, r !! "Origin" = Some (CStr o) /\ r !! "Destination" = Some (CStr d) /\
               ((r' !! "Origin" = Some (CStr o) /\ r' !! "Destination" = Some (CStr d)) \/
                (r' !! "Origin" = Some (CStr d) /\ r' !! "Destination" = Some (CStr o)))) l l' ->
  route_ids l = route_ids l'.
Proof.
  induction 1 as [|r r' l l' (o & d & Ho & Hd & Hr') _ IH]; [reflexivity|].
  cbn [route_ids]. rewrite IH. f_equal. unfold Route_ID. rewrite Ho, Hd.
  destruct Hr' as [[-> ->]|[-> ->]]; [reflexivity|].
  rewrite (sorted2_sym o d). reflexivity.
Qed.

(** The colours of a frame that has rows do not depend on the direction of
    the flights: reversing origin and destination of any of them leaves
    every colour as it is, and there is one colour for each row. *)
Theorem colors_ignore_direction (f_df g_df : DataFrame) :
  rows f_df <> [] ->
  Forall2 (fun r r' =>
             exists o d, r !! "Origin" = Some (CStr o) /\ r !! "Destination" = Some (CStr d) /\
               ((r' !! "Origin" = Some (CStr o) /\ r' !! "Destination" = Some (CStr d)) \/
                (r' !! "Origin" = Some (CStr d) /\ r' !! "Destination" = Some (CStr o))))
    (rows f_df) (rows g_df) ->
  colors f_df = colors g_df /\
  exists cs, colors f_df = Ok cs /\ length cs = length (rows f_df).
Proof.
  intros Hne H.
  assert (Hne' : rows g_df <> []).
  { intros Hg. rewrite Hg in H. inversion H. congruence. }
  rewrite (colors_rows _ Hne), (colors_rows _ Hne').
  rewrite (route_ids_direction _ _ H). split; [reflexivity|].
  assert (Hids : exists ids, route_ids (rows g_df) = Ok ids /\ length ids = length (rows f_df)).
  { clear -H. induction H as [|r r' l l' (o & d & _ & _ & Hr') _ (ids & IH & Hlen)].
    - exists []. split; reflexivity.
    - exists (String.concat "-" (sorted2 o d) :: ids). split; [|simpl; rewrite Hlen; reflexivity].
      cbn [route_ids]. rewrite IH. unfold Route_ID.
      destruct Hr' as [[-> ->]|[-> ->]]; [reflexivity|].
      rewrite (sorted2_sym o d). reflexivity. }
  destruct Hids as (ids & -> & Hlen). eexists. split; [reflexivity|].
  unfold frequencies. rewrite !length_fmap. exact Hlen.
Qed.

(** ** The run of both stages *)

Lemma process_hotels_Ok inputs (t t' : tables) rep :
  process_hotels inputs t = Ok (t', rep) ->
  (inputs !! MARRIOTT_DATA_FILE = None /\ t' = t /\ rep = not_found MARRIOTT_DATA_FILE) \/
  (exists df, t' = <[OUTPUT_HOTELS := df]> t /\ rep = saved (len df) OUTPUT_HOTELS).
Proof.
  unfold process_hotels. destruct (json_load inputs MARRIOTT_DATA_FILE) as [data|e] eqn:Hload.
  - intros H. apply bind_Ok in H as (hotels & _ & H). injection H as <- <-.
    right. eexists. split; reflexivity.
  - destruct e; try discriminate. intros [= <- <-]. left. repeat split.
    unfold json_load in Hload.
    destruct (inputs !! MARRIOTT_DATA_FILE) as [[?|]|]; (discriminate || reflexivity).
Qed.

(** A missing flight export only skips the flight stage: the hotel stage
    runs on the tables as they were, and with both exports missing nothing is
    written.  An exception of the flight stage, a flight export that is not
    JSON for one, ends the run before the hotel stage, so the hotel table is
    not written.  When both stages end normally the hotel stage leaves the
    flight table as the flight stage wrote it. *)
Theorem run_of_both_stages inputs (t : tables) :
  (inputs !! FLIGHT_DATA_FILE = None ->
     main inputs t
     = hotels_stage ← process_hotels inputs t;
       mret (fst hotels_stage, [not_found FLIGHT_DATA_FILE; snd hotels_stage])) /\
  (inputs !! FLIGHT_DATA_FILE = None -> inputs !! MARRIOTT_DATA_FILE = None ->
     main inputs t = Ok (t, [not_found FLIGHT_DATA_FILE; not_found MARRIOTT_DATA_FILE])) /\
  (forall e, process_flights inputs t = Raise e -> main inputs t = Raise e) /\
  (inputs !! FLIGHT_DATA_FILE = Some None -> main inputs t = Raise JSONDecodeError) /\
  (forall t1 r1 t2 r2,
     process_flights inputs t = Ok (t1, r1) -> process_hotels inputs t1 = Ok (t2, r2) ->
     main inputs t = Ok (t2, [r1; r2]) /\
     t2 !! OUTPUT_FLIGHTS = t1 !! OUTPUT_FLIGHTS).
Proof.
  assert (Hskip : inputs !! FLIGHT_DATA_FILE = None ->
                  process_flights inputs t = Ok (t, not_found FLIGHT_DATA_FILE)).
  { intros H. unfold process_flights, json_load. rewrite H. reflexivity. }
  split; [|split; [|split; [|split]]].
  - intros H. unfold main. rewrite (Hskip H), bind_ret_l. reflexivity.
  - intros Hf Hh. unfold main. rewrite (Hskip Hf), bind_ret_l.
    unfold process_hotels, json_load. cbn [fst snd]. rewrite Hh. reflexivity.
  - intros e H. unfold main. rewrite H. reflexivity.
  - intros H. unfold main, process_flights, json_load. rewrite H. reflexivity.
  - intros t1 r1 t2 r2 H1 H2. unfold main. rewrite H1, bind_ret_l. cbn [fst snd].
    rewrite H2, bind_ret_l. split; [reflexivity|].
    apply process_hotels_Ok in H2 as [(_ & -> & _)|(df & -> & _)]; [reflexivity|].
    apply lookup_insert_ne. discriminate.
Qed.

(** ** The scoreboard *)

Lemma min_date_le first others :
  min_date first others <= first /\ Forall (fun d => min_date first others <= d) others.
Proof.
  unfold min_date. induction others as [|d others [IH1 IH2]]; simpl.
  - split; [lia | constructor].
  - split; [lia|]. constructor; [lia|].
    eapply Forall_impl; [exact IH2|]. intros x Hx. simpl in Hx. lia.
Qed.

Lemma max_date_ge first others :
  first <= max_date first others /\ Forall (fun d => d <= max_date first others) others.
Proof.
  unfold max_date. induction others as [|d others [IH1 IH2]]; simpl.
  - split; [lia | constructor].
  - split; [lia|]. constructor; [lia|].
    eapply Forall_impl; [exact IH2|]. intros x Hx. simpl in Hx. lia.
Qed.

Lemma filter_all {A} (P : A -> Prop) `{forall x, Decision (P x)} (l : list A) :
  Forall P l -> filter P l = l.
Proof.
  induction 1 as [|x l Hx _ IH]; [reflexivity|].
  rewrite filter_cons, decide_True by exact Hx. rewrite IH. reflexivity.
Qed.

Lemma filter_none {A} (P : A -> Prop) `{forall x, Decision (P x)} (l : list A) :
  Forall (fun x => ~ P x) l -> filter P l = [].
Proof.
  induction 1 as [|x l Hx _ IH]; [reflexivity|].
  rewrite filter_cons, decide_False by exact Hx. exact IH.
Qed.

(** The dashboard shows hotel stays only through the dates of the flights.
    Without any flight it shows the note and no scoreboard, whatever hotel
    stays are logged.  With flights, and the slider within the flight dates
    as the widget keeps it, the hotel nights are those of the stays inside
    the chosen window, so stays before the first or after the last flight
    are never counted. *)
Theorem hotel_nights_follow_flight_dates (slider : Z * Z) f fs
    (df_hotels : list hotel_entry) :
  let first_day := min_date (flight_day f) (flight_day <$> fs) in
  let last_day := max_date (flight_day f) (flight_day <$> fs) in
  first_day <= fst slider -> snd slider <= last_day ->
  dashboard slider [] df_hotels = no_flights_logged /\
  exists s,
    dashboard slider (f :: fs) df_hotels = board s /\
    nights_shown s
    = column_sum (hotel_nights <$>
        filter (fun h => in_window (date_window slider (flight_day f) (flight_day <$> fs))
                           (hotel_day h) = true) df_hotels) /\
    (Forall (fun h => hotel_day h < first_day \/ last_day < hotel_day h) df_hotels ->
     nights_shown s = 0).
Proof.
  intros first_day last_day Hlo Hhi. split; [reflexivity|].
  eexists. split; [reflexivity|]. split; [reflexivity|].
  intros Hout. cbn [nights_shown]. rewrite filter_none; [reflexivity|].
  eapply Forall_impl; [exact Hout|]. intros h Hh Hin.
  unfold in_window, date_window in Hin. fold first_day last_day in Hin.
  clearbody first_day last_day. cbv beta in Hh.
  destruct (Z.ltb first_day last_day); cbn [fst snd] in Hin;
    apply andb_true_iff in Hin as [H1 H2]; apply Z.leb_le in H1, H2; lia.
Qed.

(** With the slider at its initial value, the whole range, or with all
    flights on one day, when no slider is drawn, every flight is shown: the
    count is the number of flights and the total is the sum of all miles. *)
Theorem full_window_shows_all_flights (slider : Z * Z) f fs (df_hotels : list hotel_entry) :
  let first_day := min_date (flight_day f) (flight_day <$> fs) in
  let last_day := max_date (flight_day f) (flight_day <$> fs) in
  slider = (first_day, last_day) \/ first_day = last_day ->
  exists s,
    dashboard slider (f :: fs) df_hotels = board s /\
    flights_shown s = Z.of_nat (length (f :: fs)) /\
    total_miles s = column_sum (flight_miles <$> (f :: fs)) /\
    unique_cities s = nunique (flight_destination <$> (f :: fs)).
Proof.
  intros first_day last_day Hfull.
  assert (Hwin : date_window slider (flight_day f) (flight_day <$> fs) = (first_day, last_day)).
  { unfold date_window. fold first_day last_day.
    destruct (Z.ltb_spec first_day last_day) as [Hlt|_]; [|reflexivity].
    destruct Hfull as [->|Heq]; [reflexivity | lia]. }
  assert (Hall : filter (fun x => in_window (first_day, last_day) (flight_day x) = true) (f :: fs)
                 = f :: fs).
  { apply filter_all.
    destruct (min_date_le (flight_day f) (flight_day <$> fs)) as [Hmin Hmins].
    destruct (max_date_ge (flight_day f) (flight_day <$> fs)) as [Hmax Hmaxs].
    fold first_day in Hmin, Hmins. fold last_day in Hmax, Hmaxs.
    rewrite Forall_fmap in Hmins, Hmaxs.
    constructor.
    - unfold in_window. simpl. apply andb_true_iff. split; apply Z.leb_le; lia.
    - rewrite Forall_forall in Hmins, Hmaxs. apply Forall_forall. intros x Hx.
      specialize (Hmins x Hx). specialize (Hmaxs x Hx). simpl in Hmins, Hmaxs.
      unfold in_window. simpl. apply andb_true_iff. split; apply Z.leb_le; lia. }
  eexists. split; [reflexivity|]. cbn [flights_shown total_miles unique_cities].
  rewrite Hwin, Hall. repeat split; reflexivity.
Qed.

(** The flight export in its other shapes: a missing file is reported and
    nothing is written; a file that is not JSON, or whose content is a
    number, a boolean or [null], ends the stage with an exception, and so
    does an 'activityCards' entry that is a number or a dictionary with a
    key; an empty list or an empty dictionary of cards is an export without
    flights. *)
Theorem flight_export_shapes inputs (t : tables) :
  (inputs !! FLIGHT_DATA_FILE = None ->
     process_flights inputs t = Ok (t, not_found FLIGHT_DATA_FILE)) /\
  (inputs !! FLIGHT_DATA_FILE = Some None ->
     process_flights inputs t = Raise JSONDecodeError) /\
  (forall data,
     inputs !! FLIGHT_DATA_FILE = Some (Some data) ->
     data = JNull \/ (exists b, data = JBool b) \/ (exists z, data = JInt z)
       \/ (exists q, data = JFloat q) ->
     process_flights inputs t = Raise TypeError) /\
  (forall (m : gmap string json) cards,
     inputs !! FLIGHT_DATA_FILE = Some (Some (JObj m)) ->
     m !! "activityCards" = Some cards ->
     ((exists z, cards = JInt z) -> process_flights inputs t = Raise TypeError) /\
     ((exists k v, cards = JObj {[ k := v ]}) ->
        process_flights inputs t = Raise AttributeError) /\
     (cards = JArr [] \/ cards = JObj ∅ ->
        process_flights inputs t
        = Ok (<[OUTPUT_FLIGHTS := {| columns := []; rows := [] |}]> t,
              saved 0 OUTPUT_FLIGHTS))).
Proof.
  unfold process_flights, json_load. split; [|split; [|split]].
  - intros ->. reflexivity.
  - intros ->. reflexivity.
  - intros data -> [->|[[b ->]|[[z ->]|[q ->]]]]; reflexivity.
  - intros m cards -> Hcards.
    assert (Hin : py_in "activityCards" (JObj m) = Ok true).
    { unfold py_in. rewrite bool_decide_eq_true_2 by (eexists; exact Hcards). reflexivity. }
    assert (Hget : getitem (JObj m) "activityCards" = Ok cards).
    { unfold getitem. rewrite Hcards. reflexivity. }
    unfold read_flights. rewrite Hin, bind_ret_l, Hget, bind_ret_l.
    split; [|split].
    + intros [z ->]. reflexivity.
    + intros (k & v & ->). unfold iterate. rewrite map_to_list_singleton. reflexivity.
    + intros [->| ->]; [reflexivity|].
      unfold iterate. rewrite map_to_list_empty. reflexivity.
Qed.

End Pipeline.

(** * The properties on the example inputs *)

(** The form example: an unknown code is refused and nothing is written;
    JFK to LAX is written with the distance of the oracle and the positions
    of the table. *)
Lemma save_flight_spec_witness :
  save_flight geodesic_2475 unknown_form ∅ = Ok (∅, error "Unknown Airport Code.") /\
  exists t' msg df new_row,
    save_flight geodesic_2475 jfk_lax_form ∅ = Ok (t', msg) /\
    t' !! FLIGHTS_FILE = Some df /\
    rows df = [new_row] /\
    new_row !! "Miles" = Some (CInt 2475) /\
    new_row !! "Origin_Lat" = Some (CFloat 40.6413) /\
    new_row !! "Origin_Lon" = Some (CFloat (-73.7781)) /\
    new_row !! "Dest_Lat" = Some (CFloat 33.9416) /\
    new_row !! "Dest_Lon" = Some (CFloat (-118.4085)) /\
    new_row !! "Origin" = Some (CStr "JFK") /\
    new_row !! "Destination" = Some (CStr "LAX").
Proof.
  split.
  - apply (proj1 (save_flight_spec geodesic_2475 unknown_form ∅)).
    right. vm_compute. reflexivity.
  - apply (proj1 (proj2 (save_flight_spec geodesic_2475 jfk_lax_form ∅))
             (40.6413, -73.7781)%Q (33.9416, -118.4085)%Q (DataFrame_empty FLIGHT_COLUMNS));
      vm_compute; reflexivity.
Defined.

(** A card with the date "soon" ends the flight stage with an exception. *)
Lemma batch_aborts_on_unreadable_date_witness :
  exists e,
    process_flights geodesic_2475 to_datetime_iso
      (flight_export [card_jfk_lax; card_bad_date]) ∅ = Raise e.
Proof.
  apply (batch_aborts_on_unreadable_date geodesic_2475 to_datetime_iso
           [card_jfk_lax; card_bad_date] "Airline" "Flight JFK-LAX" "soon" "JFK" "LAX"
           ValueError).
  - vm_compute. reflexivity.
  - vm_compute. reflexivity.
  - right. left.
Defined.

(** The same run, evaluated: the exception is the parser's. *)
Example unreadable_date_run :
  process_flights geodesic_2475 to_datetime_iso
    (flight_export [card_jfk_lax; card_bad_date]) ∅ = Raise ValueError.
Proof. vm_compute. reflexivity. Qed.

(** A stay that ends on the day it starts is written with 0 nights. *)
Lemma nights_not_clamped_witness :
  exists r n,
    process_edge to_datetime_iso geocode_nothing
      (stay_edge (JStr "2025-03-01") (JStr "2025-03-01") (JStr "Le Meridien Clayton"))
    = Ok (Some r) /\
    r !! "Nights" = Some (CInt n) /\ n <= 0.
Proof.
  destruct (nights_not_clamped to_datetime_iso geocode_nothing
              (JStr "2025-03-01") (JStr "2025-03-01") (JStr "Le Meridien Clayton")
              1740787200 1740787200)
    as (r & n & Hr & Hn & _ & Hle & _).
  - vm_compute. reflexivity.
  - vm_compute. reflexivity.
  - lia.
  - exists r, n. split; [exact Hr | split; [exact Hn | exact Hle]].
Defined.

Example same_day_stay :
  nights to_datetime_iso (JStr "2025-03-01") (JStr "2025-03-01") = CInt 0.
Proof. vm_compute. reflexivity. Qed.

Example reversed_stay :
  nights to_datetime_iso (JStr "2025-03-04") (JStr "2025-03-01") = CInt (-3).
Proof. vm_compute. reflexivity. Qed.

Example three_night_stay :
  nights to_datetime_iso (JStr "2025-03-01") (JStr "2025-03-04") = CInt 3.
Proof. vm_compute. reflexivity. Qed.

(** For a place known by its county only, the form proposes the county and
    the importer writes "Unknown". *)
Lemma batch_city_skips_county_witness :
  default_city (Some county_only) = Ok (JStr "Cook County") /\
  batch_city (JObj {[ "county" := JStr "Cook County" ]}) = Ok (JStr "Unknown") /\
  geocode_stay (geocode_always county_only) (JStr "Cook County Inn")
  = (41.8%Q, (-87.8)%Q, CStr "Cook County, Illinois, United States", CStr "Unknown").
Proof.
  apply (batch_city_skips_county (geocode_always county_only) (JStr "Cook County Inn")
           county_only {[ "county" := JStr "Cook County" ]} (JStr "Cook County"));
    vm_compute; reflexivity.
Defined.

(** JFK typed twice: the row is written with Origin and Destination JFK. *)
Lemma save_flight_same_airport_witness :
  exists t' df new_row,
    save_flight geodesic_2475 round_trip_form ∅ = Ok (t', success "Added JFK->JFK") /\
    t' !! FLIGHTS_FILE = Some df /\
    new_row ∈ rows df /\
    new_row !! "Origin" = Some (CStr "JFK") /\
    new_row !! "Destination" = Some (CStr "JFK").
Proof.
  apply (save_flight_same_airport geodesic_2475 round_trip_form ∅
           (40.6413, -73.7781)%Q (DataFrame_empty FLIGHT_COLUMNS));
    vm_compute; reflexivity.
Defined.


(** An unknown code: distance 0, and the imported row is zero-filled. *)
Lemma distance_degrades_to_zero_witness :
  calculate_distance geodesic_2475 "JFK" "XXX" = 0 /\
  exists r,
    process_card geodesic_2475 to_datetime_iso card_unknown_airport = Ok (Some r) /\
    r !! "Miles" = Some (CInt 0) /\
    r !! "Origin_Lat" = Some (CFloat 0) /\ r !! "Origin_Lon" = Some (CFloat 0) /\
    r !! "Dest_Lat" = Some (CFloat 0) /\ r !! "Dest_Lon" = Some (CFloat 0).
Proof.
  split.
  - apply (proj1 (distance_degrades_to_zero geodesic_2475 to_datetime_iso)).
    right. vm_compute. reflexivity.
  - exists (batch_row geodesic_2475 "2025-04-02" "JFK" "XXX").
    split; [vm_compute; reflexivity|].
    apply (proj2 (distance_degrades_to_zero geodesic_2475 to_datetime_iso)
             card_unknown_airport _ "JFK" "XXX").
    + vm_compute. reflexivity.
    + vm_compute. reflexivity.
    + vm_compute. reflexivity.
    + right. vm_compute. reflexivity.
Defined.

(** Three accepted cards, two of them equal: two rows are written. *)
Lemma batch_deduplicated_witness :
  exists t' df,
    process_flights geodesic_2475 to_datetime_iso
      (flight_export [card_jfk_lax; card_unknown_airport; card_refund; card_jfk_lax]) ∅
    = Ok (t', saved 2 OUTPUT_FLIGHTS) /\
    t' !! OUTPUT_FLIGHTS = Some df /\
    NoDup (rows df) /\ len df = 2.
Proof.
  assert (Hrun : exists t',
             process_flights geodesic_2475 to_datetime_iso
               (flight_export [card_jfk_lax; card_unknown_airport; card_refund; card_jfk_lax]) ∅
             = Ok (t', saved 2 OUTPUT_FLIGHTS))
    by (eexists; vm_compute; reflexivity).
  destruct Hrun as [t' Hrun].
  destruct (batch_deduplicated geodesic_2475 to_datetime_iso _ _ _ _ _ Hrun)
    as (data & flights & df & _ & _ & _ & Hdf & Hnd & _ & _ & _ & Hlen).
  exists t', df. split; [exact Hrun | split; [exact Hdf | split; [exact Hnd | symmetry; exact Hlen]]].
Defined.

(** Five flights between JFK and LAX are red, the one to SFO is blue. *)
Lemma route_frequency_colors_witness :
  exists cs,
    colors six_flights = Ok cs /\
    cs !! 0%nat = Some [255; 0; 0; 200] /\
    cs !! 1%nat = Some [255; 0; 0; 200] /\
    cs !! 5%nat = Some [0; 128; 255; 150].
Proof.
  destruct (route_frequency_colors six_flights six_routes) as [(cs & Hcs & _ & Htier) _].
  - discriminate.
  - unfold six_flights, six_routes. simpl rows.
    repeat (constructor; [split; reflexivity|]). constructor.
  - unfold six_routes. repeat (constructor; [split; reflexivity|]). constructor.
  - exists cs. split; [exact Hcs|].
    split; [|split].
    + apply (Htier 0%nat ("JFK", "LAX") eq_refl). vm_compute. discriminate.
    + apply (Htier 1%nat ("LAX", "JFK") eq_refl). vm_compute. discriminate.
    + apply (Htier 5%nat ("LAX", "SFO") eq_refl). vm_compute. split; discriminate.
Defined.

(** An export without cards, and one with a refund only: the output is
    replaced by the table without columns, and 0 rows are reported. *)
Lemma process_flights_nothing_accepted_witness :
  let old := {[ OUTPUT_FLIGHTS := six_flights ]} in
  process_flights geodesic_2475 to_datetime_iso {[ FLIGHT_DATA_FILE := Some (JObj ∅) ]} old
  = Ok (<[OUTPUT_FLIGHTS := {| columns := []; rows := [] |}]> old, saved 0 OUTPUT_FLIGHTS) /\
  process_flights geodesic_2475 to_datetime_iso (flight_export [card_refund]) old
  = Ok (<[OUTPUT_FLIGHTS := {| columns := []; rows := [] |}]> old, saved 0 OUTPUT_FLIGHTS).
Proof.
  intros old. split.
  - apply (process_flights_nothing_accepted geodesic_2475 to_datetime_iso _ old ∅).
    + apply lookup_singleton_eq.
    + left. apply lookup_empty.
  - apply (process_flights_nothing_accepted geodesic_2475 to_datetime_iso _ old
             {[ "activityCards" := JArr [card_refund] ]}).
    + apply lookup_singleton_eq.
    + right. exists [card_refund]. split; [apply lookup_singleton_eq|].
      constructor; [vm_compute; reflexivity | constructor].
Defined.

(** After such a run the application cannot read the flights file. *)
Example emptied_file_unreadable :
  load_data (<[OUTPUT_FLIGHTS := {| columns := []; rows := [] |}]> ∅) FLIGHTS_FILE FLIGHT_COLUMNS
  = Raise EmptyDataError.
Proof. vm_compute. reflexivity. Qed.

(** * The further properties on the example inputs *)


Lemma batch_miles_agree_with_app_witness :
  exists r,
    process_card geodesic_2475 to_datetime_iso card_jfk_lax = Ok (Some r) /\
    r !! "Miles" = Some (CInt (calculate_distance geodesic_2475 "JFK" "LAX")) /\
    r !! "Miles" = Some (CInt 2475) /\
    r !! "Origin_Lat" = Some (CFloat 40.6413).
Proof.
  assert (H : process_card geodesic_2475 to_datetime_iso card_jfk_lax
              = Ok (Some (batch_row geodesic_2475 "2025-03-01" "JFK" "LAX")))
    by (vm_compute; reflexivity).
  destruct (batch_miles_agree_with_app geodesic_2475 to_datetime_iso _ _ "JFK" "LAX" H)
    as (Hmiles & Hknown); [vm_compute; reflexivity | vm_compute; reflexivity |].
  destruct (Hknown (40.6413, -73.7781)%Q (33.9416, -118.4085)%Q) as (Hm & Hlat & _);
    [vm_compute; reflexivity | vm_compute; reflexivity |].
  eexists. split; [exact H | split; [exact Hmiles | split; [exact Hm | exact Hlat]]].
Defined.

Lemma flight_import_replaces_witness :
  exists t1 df,
    process_flights geodesic_2475 to_datetime_iso (flight_export [card_jfk_lax])
      {[ FLIGHTS_FILE := six_flights ]} = Ok (t1, saved 1 OUTPUT_FLIGHTS) /\
    t1 !! FLIGHTS_FILE = Some df /\
    process_flights geodesic_2475 to_datetime_iso (flight_export [card_jfk_lax]) t1
    = Ok (t1, saved 1 OUTPUT_FLIGHTS).
Proof.
  assert (Hrun : exists t1,
             process_flights geodesic_2475 to_datetime_iso (flight_export [card_jfk_lax])
               {[ FLIGHTS_FILE := six_flights ]} = Ok (t1, saved 1 OUTPUT_FLIGHTS))
    by (eexists; vm_compute; reflexivity).
  destruct Hrun as [t1 Hrun].
  destruct (flight_import_replaces geodesic_2475 to_datetime_iso _ _ _ _ _ Hrun)
    as (df & Hdf & _ & _ & Hagain).
  exists t1, df. split; [exact Hrun | split; [exact Hdf | exact Hagain]].
Defined.

Lemma flight_count_bounded_witness :
  exists t' count,
    process_flights geodesic_2475 to_datetime_iso
      (flight_export [card_jfk_lax; card_refund; card_jfk_lax]) ∅
    = Ok (t', saved count OUTPUT_FLIGHTS) /\
    0 <= count <= 3.
Proof.
  assert (Hrun : exists t',
             process_flights geodesic_2475 to_datetime_iso
               (flight_export [card_jfk_lax; card_refund; card_jfk_lax]) ∅
             = Ok (t', saved 1 OUTPUT_FLIGHTS))
    by (eexists; vm_compute; reflexivity).
  destruct Hrun as [t' Hrun].
  destruct (flight_count_bounded geodesic_2475 to_datetime_iso _ _ _ _ _ Hrun) as [Hb _].
  exists t', 1. split; [exact Hrun | exact Hb].
Defined.

Lemma geocoder_failure_keeps_stay_witness :
  process_edge to_datetime_iso geocode_nothing
    (stay_edge (JStr "2025-03-01") (JStr "2025-03-04") (JStr "Le Meridien Clayton"))
  = Ok (Some (hotel_row (CStr "2025-03-01") (CStr "Le Meridien Clayton") (CStr "Unknown")
                (CStr "Le Meridien Clayton") (CInt 3) 0 0)).
Proof.
  apply (geocoder_failure_keeps_stay to_datetime_iso geocode_nothing
           (JStr "2025-03-01") (JStr "2025-03-04") (JStr "Le Meridien Clayton")).
  left. reflexivity.
Defined.

Lemma geocoder_answer_fills_stay_witness :
  exists city,
    process_edge to_datetime_iso (geocode_always county_only)
      (stay_edge (JStr "2025-03-01") (JStr "2025-03-04") (JStr "Cook County Inn"))
    = Ok (Some (hotel_row (CStr "2025-03-01") (CStr "Cook County Inn") city
                  (CStr "Cook County, Illinois, United States") (CInt 3) 41.8 (-87.8))) /\
    city = CStr "Unknown".
Proof.
  destruct (geocoder_answer_fills_stay to_datetime_iso (geocode_always county_only)
              (JStr "2025-03-01") (JStr "2025-03-04") (JStr "Cook County Inn")
              county_only eq_refl)
    as (city & Hrow & Hparts & _).
  exists city. split; [exact Hrow|].
  rewrite (Hparts {[ "county" := JStr "Cook County" ]} eq_refl). vm_compute. reflexivity.
Defined.

Lemma hotel_export_shapes_witness :
  process_hotels to_datetime_iso geocode_nothing ∅ ∅ = Ok (∅, not_found MARRIOTT_DATA_FILE) /\
  process_hotels to_datetime_iso geocode_nothing {[ MARRIOTT_DATA_FILE := Some (JObj ∅) ]} ∅
  = Ok (<[OUTPUT_HOTELS := {| columns := []; rows := [] |}]> ∅, saved 0 OUTPUT_HOTELS) /\
  process_hotels to_datetime_iso geocode_nothing
    {[ MARRIOTT_DATA_FILE := Some (JObj {[ "data" := JObj ∅ ]}) ]} ∅
  = Raise KeyError.
Proof.
  split; [|split].
  - apply (proj1 (hotel_export_shapes to_datetime_iso geocode_nothing ∅ ∅)).
    apply lookup_empty.
  - apply (proj1 (proj2 (proj2 (hotel_export_shapes to_datetime_iso geocode_nothing
                                  {[ MARRIOTT_DATA_FILE := Some (JObj ∅) ]} ∅))) ∅).
    + apply lookup_singleton_eq.
    + apply lookup_empty.
  - apply (proj2 (proj2 (proj2 (hotel_export_shapes to_datetime_iso geocode_nothing
                                  {[ MARRIOTT_DATA_FILE := Some (JObj {[ "data" := JObj ∅ ]}) ]}
                                  ∅)))
             {[ "data" := JObj ∅ ]} ∅).
    + apply lookup_singleton_eq.
    + apply lookup_singleton_eq.
    + apply lookup_empty.
Defined.

Lemma log_hotel_spec_witness :
  exists t' df new_hotel,
    log_hotel meridien_form None ∅ = Ok (t', success "Hotel Saved!") /\
    t' !! HOTELS_FILE = Some df /\
    rows df = [new_hotel] /\
    new_hotel !! "Name" = Some (CStr "Le Meridien Clayton") /\
    new_hotel !! "Nights" = Some (CInt 2) /\
    new_hotel !! "Lat" = Some (CFloat 0) /\ new_hotel !! "Lon" = Some (CFloat 0).
Proof.
  destruct (log_hotel_spec meridien_form None ∅ (DataFrame_empty HOTEL_COLUMNS)
              (load_data_absent ∅ HOTELS_FILE HOTEL_COLUMNS (lookup_empty _)))
    as (t' & df & new_hotel & Hlog & Hdf & Hrows & _ & Hname & _ & _ & Hnights & Hnone & _).
  destruct (Hnone eq_refl) as [Hlat Hlon].
  exists t', df, new_hotel.
  split; [exact Hlog|]. split; [exact Hdf|]. split; [exact Hrows|].
  split; [exact Hname|]. split; [exact Hnights|]. split; [exact Hlat | exact Hlon].
Defined.

Lemma failed_search_keeps_old_location_witness :
  fst (search_location geocode_nothing "Grand Hotel" (Some county_only)) = Some county_only /\
  exists t' df new_hotel,
    log_hotel meridien_form
      (fst (search_location geocode_nothing "Grand Hotel" (Some county_only))) ∅
    = Ok (t', success "Hotel Saved!") /\
    t' !! HOTELS_FILE = Some df /\
    rows df = [new_hotel] /\
    new_hotel !! "Name" = Some (CStr "Le Meridien Clayton") /\
    new_hotel !! "Lat" = Some (CFloat 41.8) /\
    new_hotel !! "Lon" = Some (CFloat (-87.8)).
Proof.
  destruct (failed_search_keeps_old_location geocode_nothing "Grand Hotel" county_only
              meridien_form ∅ (DataFrame_empty HOTEL_COLUMNS))
    as (Hkept & _ & Hlog).
  - right. left. reflexivity.
  - apply load_data_absent, lookup_empty.
  - split; [exact Hkept | exact Hlog].
Defined.

Lemma form_defaults_chain_witness :
  default_name (Some county_only) = Ok (JStr "Cook County") /\
  default_city (Some county_only) = Ok (JStr "Cook County") /\
  default_addr (Some county_only) = "Cook County, Illinois, United States".
Proof.
  destruct (form_defaults_chain county_only) as (_ & _ & _ & Haddr & _ & _ & Hparts & _).
  destruct (Hparts {[ "county" := JStr "Cook County" ]} eq_refl) as [Hname Hcity].
  split; [exact Hname | split; [exact Hcity | exact Haddr]].
Defined.

Lemma grid_save_replaces_witness :
  grid_offered FLIGHTS_FILE ∅ = Ok false /\
  (exists r' : row,
     load_data (save_changes blanked_grid FLIGHTS_FILE {[ FLIGHTS_FILE := six_flights ]})
       FLIGHTS_FILE [] = Ok (parse_frame blanked_grid) /\
     rows (parse_frame blanked_grid) !! 0%nat = Some r' /\
     r' !! "Airline" = Some CNaN /\
     r' !! "Origin" = Some (CStr "JFK")) /\
  grid_offered FLIGHTS_FILE
    (save_changes {| columns := FLIGHT_COLUMNS; rows := [] |} FLIGHTS_FILE
       {[ FLIGHTS_FILE := six_flights ]})
  = Ok false.
Proof.
  assert (Hnd : NoDup FLIGHT_COLUMNS) by (apply (bool_decide_unpack _); vm_compute; reflexivity).
  assert (Hcol : forall c, In c FLIGHT_COLUMNS -> c ∈ FLIGHT_COLUMNS)
    by (intros c; apply list_elem_of_In).
  split; [|split].
  - apply (proj1 (grid_save_replaces blanked_grid FLIGHTS_FILE ∅)). apply lookup_empty.
  - destruct (grid_save_replaces blanked_grid FLIGHTS_FILE {[ FLIGHTS_FILE := six_flights ]})
      as (_ & _ & Hsaved & _).
    destruct (Hsaved ltac:(discriminate)) as (Hload & _ & _ & Hcell & _).
    destruct (Hcell Hnd 0%nat _ "Airline" eq_refl (Hcol "Airline" ltac:(simpl; tauto)))
      as (r' & Hr & Hblank & _).
    destruct (Hcell Hnd 0%nat _ "Origin" eq_refl (Hcol "Origin" ltac:(simpl; tauto)))
      as (r'' & Hr2 & _ & Hkind).
    rewrite Hr in Hr2. injection Hr2 as <-.
    exists r'. split; [apply Hload|]. split; [exact Hr|]. split.
    + apply Hblank. right. left. vm_compute. reflexivity.
    + rewrite Hkind by (vm_compute; reflexivity). vm_compute. reflexivity.
  - destruct (grid_save_replaces {| columns := FLIGHT_COLUMNS; rows := [] |} FLIGHTS_FILE
                {[ FLIGHTS_FILE := six_flights ]}) as (_ & _ & Hsaved & _).
    destruct (Hsaved ltac:(discriminate)) as (_ & _ & _ & _ & Hgrid). exact Hgrid.
Defined.

Lemma flight_form_ignores_case_witness :
  save_flight geodesic_2475 jfk_lax_form ∅
  = save_flight geodesic_2475
      {| date_input := Date 2025 3 1; airline_input := "Delta";
         origin_input := "jfk"; dest_input := "Lax"; miles_input := 0 |} ∅.
Proof.
  apply (flight_form_ignores_case geodesic_2475 jfk_lax_form
           {| date_input := Date 2025 3 1; airline_input := "Delta";
              origin_input := "jfk"; dest_input := "Lax"; miles_input := 0 |} ∅);
    reflexivity.
Defined.

Lemma colors_ignore_direction_witness :
  colors six_flights = colors six_flights_reversed.
Proof.
  apply (colors_ignore_direction six_flights six_flights_reversed); [discriminate|].
  unfold six_flights, six_flights_reversed, six_routes. cbn [rows fmap list_fmap fst snd].
  repeat (constructor;
          [eexists _, _; split; [reflexivity|]; split; [reflexivity|];
           right; split; reflexivity|]).
  constructor.
Defined.

Lemma run_of_both_stages_witness :
  main geodesic_2475 to_datetime_iso geocode_nothing ∅ ∅
  = Ok (∅, [not_found FLIGHT_DATA_FILE; not_found MARRIOTT_DATA_FILE]) /\
  main geodesic_2475 to_datetime_iso geocode_nothing
    {[ FLIGHT_DATA_FILE := None ]} ∅ = Raise JSONDecodeError.
Proof.
  split.
  - apply (proj1 (proj2 (run_of_both_stages geodesic_2475 to_datetime_iso geocode_nothing ∅ ∅)));
      apply lookup_empty.
  - apply (proj1 (proj2 (proj2 (proj2
             (run_of_both_stages geodesic_2475 to_datetime_iso geocode_nothing
                {[ FLIGHT_DATA_FILE := None ]} ∅))))).
    apply lookup_singleton_eq.
Defined.

Lemma hotel_nights_follow_flight_dates_witness :
  dashboard (20148, 20155) [] three_stays = no_flights_logged /\
  exists s,
    dashboard (20148, 20155) two_flights three_stays = board s /\
    nights_shown s = 2.
Proof.
  destruct (hotel_nights_follow_flight_dates (20148, 20155)
              {| flight_day := 20148; flight_destination := "LAX"; flight_miles := 2475 |}
              [ {| flight_day := 20155; flight_destination := "JFK"; flight_miles := 2475 |} ]
              three_stays)
    as (Hnone & s & Hs & Hnights & _).
  - vm_compute. discriminate.
  - vm_compute. discriminate.
  - split; [exact Hnone|]. exists s. split; [exact Hs|].
    rewrite Hnights. vm_compute. reflexivity.
Defined.

Lemma full_window_shows_all_flights_witness :
  exists s,
    dashboard (20148, 20155) two_flights three_stays = board s /\
    flights_shown s = 2 /\ total_miles s = 4950 /\ unique_cities s = 2.
Proof.
  destruct (full_window_shows_all_flights (20148, 20155)
              {| flight_day := 20148; flight_destination := "LAX"; flight_miles := 2475 |}
              [ {| flight_day := 20155; flight_destination := "JFK"; flight_miles := 2475 |} ]
              three_stays)
    as (s & Hs & Hcount & Hmiles & Hcities).
  - left. reflexivity.
  - exists s. split; [exact Hs|].
    split; [rewrite Hcount; reflexivity|].
    split; [rewrite Hmiles; reflexivity | rewrite Hcities; vm_compute; reflexivity].
Defined.

Lemma flight_export_shapes_witness :
  process_flights geodesic_2475 to_datetime_iso ∅ ∅ = Ok (∅, not_found FLIGHT_DATA_FILE) /\
  process_flights geodesic_2475 to_datetime_iso {[ FLIGHT_DATA_FILE := Some JNull ]} ∅
  = Raise TypeError /\
  process_flights geodesic_2475 to_datetime_iso
    {[ FLIGHT_DATA_FILE := Some (JObj {[ "activityCards" := JObj {[ "a" := JNull ]} ]}) ]} ∅
  = Raise AttributeError.
Proof.
  split; [|split].
  - apply (proj1 (flight_export_shapes geodesic_2475 to_datetime_iso ∅ ∅)). apply lookup_empty.
  - apply (proj1 (proj2 (proj2 (flight_export_shapes geodesic_2475 to_datetime_iso
                                  {[ FLIGHT_DATA_FILE := Some JNull ]} ∅))) JNull).
    + apply lookup_singleton_eq.
    + left. reflexivity.
  - apply (proj1 (proj2 (proj2 (proj2 (proj2 (flight_export_shapes geodesic_2475 to_datetime_iso
               {[ FLIGHT_DATA_FILE := Some (JObj {[ "activityCards" := JObj {[ "a" := JNull ]} ]}) ]}
               ∅))) {[ "activityCards" := JObj {[ "a" := JNull ]} ]} (JObj {[ "a" := JNull ]})
               ltac:(apply lookup_singleton_eq) ltac:(apply lookup_singleton_eq)))).
    eexists _, _. reflexivity.
Defined.
